(** * Meta WhatsApp Business API MCP server: tool dispatch and payload translation

    A shallow embedding of [src/mcp-servers/meta-whatsapp/server.py].

    - JSON documents (tool arguments, request bodies, remote responses) are
      the inductive type [json]; a Python [dict] is an association list in
      insertion order whose keys are pairwise distinct.
    - The Python operators the handlers use on such values ([in], [x[k]],
      [x.get(k)], truthiness, [==], iteration, [str]) are total functions
      that return [Raise] where Python raises.
    - The handlers are written in a small monad [IO] that threads the list
      of HTTP requests sent so far and propagates exceptions; the remote
      platform is a function from requests to responses.
    - [json.dumps], [repr] of containers, [str(e)] and
      [traceback.format_exc()] belong to the Python runtime and are section
      variables.  JSON numbers are integers: floating point is outside this
      model.  A string is the sequence of its characters, one [ascii] per
      character; characters beyond that range are outside this model.
      [log] writes to stderr only and is left out. *)

From Stdlib Require Import List String Ascii ZArith Bool Lia Permutation.
From Stdlib Require Import DecimalString.
Import ListNotations.
Open Scope string_scope.
Open Scope list_scope.

(** String concatenation, as in an f-string. *)
Infix "+++" := String.append (right associativity, at level 60).

(** ** JSON documents *)

Set Warnings "-register-all".

Inductive json : Type :=
| JNull : json
| JBool : bool -> json
| JInt : Z -> json
| JStr : string -> json
| JArr : list json -> json
| JObj : list (string * json) -> json.

Definition dict : Type := list (string * json).

Definition keys (d : dict) : list string := map fst d.

(** A Python dict holds each key once. *)
Definition wf_dict (d : dict) : Prop := NoDup (keys d).

Fixpoint dict_get (k : string) (d : dict) : option json :=
  match d with
  | [] => None
  | (k', v) :: d' => if String.eqb k k' then Some v else dict_get k d'
  end.

Definition dict_mem (k : string) (d : dict) : bool :=
  match dict_get k d with Some _ => true | None => false end.

(** ** Exceptions and outcomes *)

Inductive exn : Type :=
| KeyError (k : string)
| TypeError
| IndexError
| AttributeError
| ValueError (msg : string)
| TransportError.

Inductive res (A : Type) : Type :=
| Ok (a : A)
| Raise (e : exn).
Arguments Ok {A} a.
Arguments Raise {A} e.

Definition rbind {A B} (m : res A) (k : A -> res B) : res B :=
  match m with
  | Ok a => k a
  | Raise e => Raise e
  end.

Declare Scope result_scope.
Delimit Scope result_scope with res.
Notation "x <- m ;; k" := (rbind m (fun x => k))
  (at level 61, m at next level, right associativity) : result_scope.

(** ** Python operators on JSON values *)

(** [bool(x)] *)
Definition py_truthy (j : json) : bool :=
  match j with
  | JNull => false
  | JBool b => b
  | JInt z => negb (Z.eqb z 0)
  | JStr s => negb (String.eqb s "")
  | JArr l => match l with [] => false | _ => true end
  | JObj o => match o with [] => false | _ => true end
  end.

(** [a == b]: [bool] is a subtype of [int]; lists compare element-wise;
    dicts compare as maps, whatever their insertion order. *)
Fixpoint py_eq (a b : json) {struct a} : bool :=
  match a, b with
  | JNull, JNull => true
  | JBool x, JBool y => Bool.eqb x y
  | JBool x, JInt y => Z.eqb (if x then 1 else 0) y
  | JInt x, JBool y => Z.eqb x (if y then 1 else 0)
  | JInt x, JInt y => Z.eqb x y
  | JStr s, JStr t => String.eqb s t
  | JArr l, JArr m =>
      (fix go (l m : list json) {struct l} : bool :=
         match l, m with
         | [], [] => true
         | x :: l', y :: m' => py_eq x y && go l' m'
         | _, _ => false
         end) l m
  | JObj l, JObj m =>
      Nat.eqb (List.length l) (List.length m) &&
      (fix go (l : list (string * json)) {struct l} : bool :=
         match l with
         | [] => true
         | (k, v) :: l' =>
             match dict_get k m with
             | Some w => py_eq v w
             | None => false
             end && go l'
         end) l
  | _, _ => false
  end.

(** [k in s] on strings: substring test. *)
Fixpoint str_contains (k s : string) : bool :=
  String.prefix k s ||
  match s with
  | EmptyString => false
  | String _ s' => str_contains k s'
  end.

(** ["k" in x] *)
Definition py_in (k : string) (j : json) : res bool :=
  match j with
  | JObj o => Ok (dict_mem k o)
  | JArr l => Ok (existsb (fun x => py_eq x (JStr k)) l)
  | JStr s => Ok (str_contains k s)
  | _ => Raise TypeError
  end.

(** [x["k"]] *)
Definition py_getitem (j : json) (k : string) : res json :=
  match j with
  | JObj o => match dict_get k o with
              | Some v => Ok v
              | None => Raise (KeyError k)
              end
  | _ => Raise TypeError
  end.

(** [x[0]]; the keys of a JSON object are strings, so an integer key is
    never found.  On a string, [x[0]] is its first character (one [ascii],
    as in [py_iter]). *)
Definition py_getitem0 (j : json) : res json :=
  match j with
  | JArr l => match l with
              | x :: _ => Ok x
              | [] => Raise IndexError
              end
  | JStr s => match s with
              | String c _ => Ok (JStr (String c EmptyString))
              | EmptyString => Raise IndexError
              end
  | JObj _ => Raise (KeyError "0")
  | _ => Raise TypeError
  end.

(** [x.get("k", default)]; only dicts have the method. *)
Definition py_get_default (j : json) (k : string) (dflt : json) : res json :=
  match j with
  | JObj o => match dict_get k o with
              | Some v => Ok v
              | None => Ok dflt
              end
  | _ => Raise AttributeError
  end.

(** [x.get("k")] *)
Definition py_get (j : json) (k : string) : res json :=
  py_get_default j k JNull.

(** [for t in x].  A string is the sequence of its characters, one [ascii]
    each; text with characters beyond that range has no exact image in
    this model. *)
Definition py_iter (j : json) : res (list json) :=
  match j with
  | JArr l => Ok l
  | JObj o => Ok (map (fun kv => JStr (fst kv)) o)
  | JStr s => Ok (map (fun c => JStr (String c EmptyString)) (list_ascii_of_string s))
  | _ => Raise TypeError
  end.

(** [len(x)] *)
Definition py_len (j : json) : res nat :=
  match j with
  | JArr l => Ok (List.length l)
  | JObj o => Ok (List.length o)
  | JStr s => Ok (String.length s)
  | _ => Raise TypeError
  end.

Definition nat_to_string (n : nat) : string :=
  NilZero.string_of_uint (Nat.to_uint n).

Definition Z_to_string (z : Z) : string :=
  NilZero.string_of_int (Z.to_int z).

(** The [arguments] of a tool call are a dict. *)
Definition arg (arguments : dict) (k : string) : res json :=
  py_getitem (JObj arguments) k.

Definition arg_get (arguments : dict) (k : string) : json :=
  match dict_get k arguments with Some v => v | None => JNull end.

Definition arg_get_default (arguments : dict) (k : string) (dflt : json) : json :=
  match dict_get k arguments with Some v => v | None => dflt end.

(** [str(x)] as an f-string placeholder renders it; [repr] of a list or a
    dict is left to the runtime. *)
Definition py_str (py_repr : json -> string) (j : json) : string :=
  match j with
  | JStr s => s
  | JNull => "None"
  | JBool true => "True"
  | JBool false => "False"
  | JInt z => Z_to_string z
  | _ => py_repr j
  end.

(** List comprehension [[t for t in l if cond(t)]] with a condition that
    may raise. *)
Fixpoint filter_res (cond : json -> res bool) (l : list json)
  : res (list json) :=
  match l with
  | [] => Ok []
  | t :: l' =>
      (b <- cond t ;;
       r <- filter_res cond l' ;;
       Ok (if b then t :: r else r))%res
  end.

(** [for t in l: output += row(t)] *)
Fixpoint fold_rows (row : json -> res string) (l : list json) (output : string)
  : res string :=
  match l with
  | [] => Ok output
  | t :: l' => (r <- row t ;; fold_rows row l' (output +++ r))%res
  end.

(** ** HTTP requests and the [IO] monad *)

Record http_request : Type := mk_request {
  rq_method : string;
  rq_url : string;
  rq_headers : list (string * string);
  rq_params : option json;   (* [params=] of httpx: the query string *)
  rq_json : option json      (* [json=] of httpx: the request body *)
}.

(** The remote platform: the parsed JSON body of the response to a request,
    or a transport-level fault. *)
Definition remote : Type := http_request -> res json.

(** A computation sends requests, in order, and returns or raises. *)
Definition IO (A : Type) : Type := remote -> list http_request * res A.

Definition ret {A} (a : A) : IO A := fun _ => ([], Ok a).

Definition raise {A} (e : exn) : IO A := fun _ => ([], Raise e).

Definition lift {A} (r : res A) : IO A := fun _ => ([], r).

Definition bind {A B} (m : IO A) (k : A -> IO B) : IO B :=
  fun w =>
    match m w with
    | (t, Ok a) => let (t', r) := k a w in (t ++ t', r)
    | (t, Raise e) => (t, Raise e)
    end.

(** [try: m except Exception as e: h e] *)
Definition try_except {A} (m : IO A) (h : exn -> IO A) : IO A :=
  fun w =>
    match m w with
    | (t, Ok a) => (t, Ok a)
    | (t, Raise e) => let (t', r) := h e w in (t ++ t', r)
    end.

Definition http_send (rq : http_request) : IO json :=
  fun w => ([rq], w rq).

Declare Scope io_scope.
Delimit Scope io_scope with io.
Notation "x <- m ;; k" := (bind m (fun x => k))
  (at level 61, m at next level, right associativity) : io_scope.

Definition requests {A} (r : list http_request * res A) : list http_request :=
  fst r.

Definition outcome {A} (r : list http_request * res A) : res A :=
  snd r.

Record TextContent : Type := mk_text {
  tc_type : string;
  tc_text : string
}.

Definition text_content (s : string) : TextContent := mk_text "text" s.

Definition nl : string := String (ascii_of_nat 10) EmptyString.

Definition API_VERSION : string := "v24.0".

Definition BASE_URL : string := "https://graph.facebook.com/" +++ API_VERSION.

(** ** The tool catalog: names and required argument keys of [list_tools] *)

Record Tool : Type := mk_tool {
  tool_name : string;
  tool_required : list string
}.

Definition list_tools : list Tool :=
  [ mk_tool "list_templates" [];
    mk_tool "get_template" [];
    mk_tool "create_template" ["name"; "category"; "body_text"; "body_examples"];
    mk_tool "delete_template" ["template_name"];
    mk_tool "get_account_info" [];
    mk_tool "get_phone_numbers" [];
    mk_tool "send_template_message" ["to"; "template_name"; "body_parameters"];
    mk_tool "send_text_message" ["to"; "message"];
    mk_tool "get_analytics" [] ].

Definition catalog : list string := map tool_name list_tools.

Section Server.

(** Configuration read from the environment at start-up. *)
Variable META_ACCESS_TOKEN : string.
Variable WABA_ID : string.
Variable PHONE_NUMBER_ID : string.

(** [json.dumps(x, indent=..., ensure_ascii=...)] *)
Variable json_dumps : option nat -> bool -> json -> string.
(** [repr] of a list or dict inside an f-string. *)
Variable py_repr : json -> string.
(** [str(e)] and [traceback.format_exc()] for a caught exception. *)
Variable exn_str : exn -> string.
Variable format_exc : exn -> string.

Local Abbreviation str := (py_str py_repr).

(** ** Remote API client: [make_request] *)

Definition headers : list (string * string) :=
  [ ("Authorization", "Bearer " +++ META_ACCESS_TOKEN);
    ("Content-Type", "application/json") ].

Definition make_request (method endpoint : string) (data : option json) : IO json :=
  let url := BASE_URL +++ "/" +++ endpoint in
  if String.eqb method "GET" then
    http_send (mk_request "GET" url headers data None)
  else if String.eqb method "POST" then
    http_send (mk_request "POST" url headers None data)
  else if String.eqb method "DELETE" then
    http_send (mk_request "DELETE" url headers None None)
  else
    raise (ValueError ("Unsupported method: " +++ method)).

(** ** [list_templates] *)

(** Lines 262-266: the in-memory filter on the [data] value. *)
Definition filter_by (arguments : dict) (field : string) (templates : json)
  : res json :=
  if py_truthy (arg_get arguments field) then
    (l <- py_iter templates ;;
     r <- filter_res (fun t =>
            v <- py_get t field ;;
            a <- arg arguments field ;;
            Ok (py_eq v a)) l ;;
     Ok (JArr r))%res
  else Ok templates.

Definition filter_templates (arguments : dict) (templates : json) : res json :=
  (templates <- filter_by arguments "status" templates ;;
   filter_by arguments "category" templates)%res.

(** Line 272: one table row. *)
Definition template_row (t : json) : res string :=
  (name <- py_getitem t "name" ;;
   category <- py_get_default t "category" (JStr "N/A") ;;
   status <- py_get_default t "status" (JStr "N/A") ;;
   language <- py_get_default t "language" (JStr "N/A") ;;
   Ok ("| " +++ str name +++ " | " +++ str category +++ " | " +++ str status
       +++ " | " +++ str language +++ " |" +++ nl))%res.

Definition render_templates (templates : json) : res string :=
  (let output := "## WhatsApp Templates" +++ nl +++ nl in
   let output := output +++ "| Name | Category | Status | Language |" +++ nl in
   let output := output +++ "|------|----------|--------|----------|" +++ nl in
   l <- py_iter templates ;;
   output <- fold_rows template_row l output ;;
   n <- py_len templates ;;
   Ok (output +++ nl +++ "**Total: " +++ nat_to_string n +++ " templates**"))%res.

(** Lines 261-275: what is returned for a response. *)
Definition format_list_templates (arguments : dict) (result : json)
  : res (list TextContent) :=
  (has <- py_in "data" result ;;
   if has : bool then
     templates <- py_getitem result "data" ;;
     templates <- filter_templates arguments templates ;;
     output <- render_templates templates ;;
     Ok [text_content output]
   else
     Ok [text_content ("Error: " +++ json_dumps None true result)])%res.

Definition list_templates_query : json :=
  JObj [ ("fields", JStr "name,status,category,language,components,quality_score");
         ("limit", JInt 50) ].

Definition call_list_templates (arguments : dict) : IO (list TextContent) :=
  (result <- make_request "GET" (WABA_ID +++ "/message_templates")
               (Some list_templates_query) ;;
   lift (format_list_templates arguments result))%io.

(** ** [get_template] *)

Definition call_get_template (arguments : dict) : IO (list TextContent) :=
  (result <-
     (if py_truthy (arg_get arguments "template_id") then
        template_id <- lift (arg arguments "template_id") ;;
        make_request "GET" (str template_id)
          (Some (JObj [("fields",
                        JStr "name,status,category,language,components,quality_score")]))
      else
        result <- make_request "GET" (WABA_ID +++ "/message_templates")
                    (Some (JObj [("fields", JStr "name,status,category,language,components");
                                 ("name", arg_get arguments "template_name")])) ;;
        lift (has <- py_in "data" result ;;
              if has : bool then
                data <- py_getitem result "data" ;;
                if py_truthy data then
                  data <- py_getitem result "data" ;;
                  py_getitem0 data
                else Ok result
              else Ok result)%res) ;;
   ret [text_content (json_dumps (Some 2) false result)])%io.

(** ** [create_template] *)

(** Lines 317-328: the loop over the input buttons; [acc] is
    [button_component["buttons"]]. *)
Fixpoint build_buttons (btns : list json) (acc : list json) : res (list json) :=
  match btns with
  | [] => Ok acc
  | btn :: rest =>
      (ty <- py_getitem btn "type" ;;
       if py_eq ty (JStr "QUICK_REPLY") then
         text <- py_getitem btn "text" ;;
         build_buttons rest
           (acc ++ [JObj [("type", JStr "QUICK_REPLY"); ("text", text)]])
       else
         ty <- py_getitem btn "type" ;;
         if py_eq ty (JStr "URL") then
           text <- py_getitem btn "text" ;;
           url <- py_getitem btn "url" ;;
           build_buttons rest
             (acc ++ [JObj [("type", JStr "URL"); ("text", text); ("url", url)]])
         else
           build_buttons rest acc)%res
  end.

(** Lines 300-306. *)
Definition body_component (arguments : dict) : res json :=
  (body_text <- arg arguments "body_text" ;;
   body_examples <- arg arguments "body_examples" ;;
   Ok (JObj [ ("type", JStr "BODY");
              ("text", body_text);
              ("example", JObj [("body_text", JArr [body_examples])]) ]))%res.

(** Lines 291-329: the component list, appended to in source order. *)
Definition create_template_components (arguments : dict) : res (list json) :=
  (let components := [] in
   components <-
     (if py_truthy (arg_get arguments "header_text") then
        header_text <- arg arguments "header_text" ;;
        Ok (components ++ [JObj [ ("type", JStr "HEADER");
                                  ("format", JStr "TEXT");
                                  ("text", header_text) ]])
      else Ok components) ;;
   body <- body_component arguments ;;
   let components := components ++ [body] in
   components <-
     (if py_truthy (arg_get arguments "footer_text") then
        footer_text <- arg arguments "footer_text" ;;
        Ok (components ++ [JObj [ ("type", JStr "FOOTER");
                                  ("text", footer_text) ]])
      else Ok components) ;;
   if py_truthy (arg_get arguments "buttons") then
     buttons <- arg arguments "buttons" ;;
     btns <- py_iter buttons ;;
     built <- build_buttons btns [] ;;
     Ok (components ++ [JObj [("type", JStr "BUTTONS"); ("buttons", JArr built)]])
   else Ok components)%res.

(** Lines 331-336. *)
Definition create_template_payload (arguments : dict) : res json :=
  (components <- create_template_components arguments ;;
   name <- arg arguments "name" ;;
   category <- arg arguments "category" ;;
   Ok (JObj [ ("name", name);
              ("category", category);
              ("language", arg_get_default arguments "language" (JStr "es_CL"));
              ("components", JArr components) ]))%res.

(** Lines 342-349. *)
Definition format_create_template (arguments : dict) (result : json)
  : res (list TextContent) :=
  (has <- py_in "id" result ;;
   if has : bool then
     id <- py_getitem result "id" ;;
     status <- py_get_default result "status" (JStr "PENDING") ;;
     category <- arg arguments "category" ;;
     category <- py_get_default result "category" category ;;
     Ok [text_content ("Template created successfully!" +++ nl +++ nl
                       +++ "- **ID**: " +++ str id +++ nl
                       +++ "- **Status**: " +++ str status +++ nl
                       +++ "- **Category**: " +++ str category)]
   else
     Ok [text_content ("Error creating template: "
                       +++ json_dumps (Some 2) true result)])%res.

Definition call_create_template (arguments : dict) : IO (list TextContent) :=
  try_except
    (payload <- lift (create_template_payload arguments) ;;
     result <- make_request "POST" (WABA_ID +++ "/message_templates") (Some payload) ;;
     lift (format_create_template arguments result))%io
    (fun e =>
       ret [text_content ("Exception creating template: " +++ exn_str e +++ nl
                          +++ format_exc e)]).

(** ** [delete_template] *)

(** Lines 358-360. *)
Definition format_delete_template (template_name : json) (result : json)
  : res (list TextContent) :=
  (success <- py_get result "success" ;;
   if py_truthy success then
     Ok [text_content ("Template '" +++ str template_name
                       +++ "' deleted successfully")]
   else
     Ok [text_content ("Error: " +++ json_dumps None true result)])%res.

Definition call_delete_template (arguments : dict) : IO (list TextContent) :=
  (template_name <- lift (arg arguments "template_name") ;;
   result <- make_request "DELETE" (WABA_ID +++ "/message_templates")
               (Some (JObj [("name", template_name)])) ;;
   lift (format_delete_template template_name result))%io.

(** ** [get_account_info] *)

Definition call_get_account_info (arguments : dict) : IO (list TextContent) :=
  (result <- make_request "GET" WABA_ID
               (Some (JObj [("fields", JStr "id,name,currency,timezone_id,message_template_namespace,account_review_status,business_verification_status")])) ;;
   ret [text_content ("## WABA Account Info" +++ nl +++ nl +++ "```json" +++ nl
                      +++ json_dumps (Some 2) true result +++ nl +++ "```")])%io.

(** ** [get_phone_numbers] *)

(** Lines 373-376: the lines rendered for one phone number. *)
Definition phone_rows (phone : json) : res string :=
  (display <- py_get phone "display_phone_number" ;;
   verified <- py_get phone "verified_name" ;;
   quality <- py_get_default phone "quality_rating" (JStr "N/A") ;;
   limit <- py_get_default phone "messaging_limit_tier" (JStr "N/A") ;;
   id <- py_get phone "id" ;;
   Ok ("- **" +++ str display +++ "** (" +++ str verified +++ ")" +++ nl
       +++ "  - Quality: " +++ str quality +++ nl
       +++ "  - Limit: " +++ str limit +++ nl
       +++ "  - ID: " +++ str id +++ nl +++ nl))%res.

Definition format_phone_numbers (result : json) : res (list TextContent) :=
  (has <- py_in "data" result ;;
   if has : bool then
     data <- py_getitem result "data" ;;
     l <- py_iter data ;;
     output <- fold_rows phone_rows l ("## Phone Numbers" +++ nl +++ nl) ;;
     Ok [text_content output]
   else
     Ok [text_content ("Error: " +++ json_dumps None true result)])%res.

Definition call_get_phone_numbers (arguments : dict) : IO (list TextContent) :=
  (result <- make_request "GET" (WABA_ID +++ "/phone_numbers")
               (Some (JObj [("fields", JStr "id,display_phone_number,verified_name,quality_rating,messaging_limit_tier,status")])) ;;
   lift (format_phone_numbers result))%io.

(** ** [send_template_message] *)

(** [[{"type": "text", "text": p} for p in params]] *)
Definition text_parameters (params : list json) : list json :=
  map (fun p => JObj [("type", JStr "text"); ("text", p)]) params.

(** Lines 383-387 and 389-393: one optional component. *)
Definition parameter_component (arguments : dict) (key type : string)
  (components : list json) : res (list json) :=
  if py_truthy (arg_get arguments key) then
    (params <- arg arguments key ;;
     l <- py_iter params ;;
     Ok (components ++ [JObj [ ("type", JStr type);
                               ("parameters", JArr (text_parameters l)) ]]))%res
  else Ok components.

(** Lines 381-393. *)
Definition send_template_components (arguments : dict) : res (list json) :=
  (components <- parameter_component arguments "header_parameters" "header" [] ;;
   parameter_component arguments "body_parameters" "body" components)%res.

(** Lines 395-405. *)
Definition send_template_payload (arguments : dict) : res json :=
  (components <- send_template_components arguments ;;
   to <- arg arguments "to" ;;
   template_name <- arg arguments "template_name" ;;
   Ok (JObj [ ("messaging_product", JStr "whatsapp");
              ("recipient_type", JStr "individual");
              ("to", to);
              ("type", JStr "template");
              ("template",
               JObj [ ("name", template_name);
                      ("language",
                       JObj [("code", arg_get_default arguments "language" (JStr "es_CL"))]);
                      ("components", JArr components) ]) ]))%res.

(** Lines 409-412 and 427-430: both send operations format alike, up to
    the success headline. *)
Definition format_send (headline : string) (arguments : dict) (result : json)
  : res (list TextContent) :=
  (has <- py_in "messages" result ;;
   if has : bool then
     messages <- py_getitem result "messages" ;;
     first <- py_getitem0 messages ;;
     msg_id <- py_getitem first "id" ;;
     to <- arg arguments "to" ;;
     Ok [text_content (headline +++ nl +++ nl
                       +++ "- **Message ID**: " +++ str msg_id +++ nl
                       +++ "- **To**: " +++ str to)]
   else
     Ok [text_content ("Error sending message: "
                       +++ json_dumps (Some 2) true result)])%res.

Definition call_send_template_message (arguments : dict) : IO (list TextContent) :=
  (payload <- lift (send_template_payload arguments) ;;
   result <- make_request "POST" (PHONE_NUMBER_ID +++ "/messages") (Some payload) ;;
   lift (format_send "Message sent successfully!" arguments result))%io.

(** ** [send_text_message] *)

(** Lines 415-423. *)
Definition send_text_payload (arguments : dict) : res json :=
  (to <- arg arguments "to" ;;
   message <- arg arguments "message" ;;
   Ok (JObj [ ("messaging_product", JStr "whatsapp");
              ("recipient_type", JStr "individual");
              ("to", to);
              ("type", JStr "text");
              ("text", JObj [("body", message)]) ]))%res.

Definition call_send_text_message (arguments : dict) : IO (list TextContent) :=
  (payload <- lift (send_text_payload arguments) ;;
   result <- make_request "POST" (PHONE_NUMBER_ID +++ "/messages") (Some payload) ;;
   lift (format_send "Text message sent!" arguments result))%io.

(** ** [get_analytics] *)

Definition analytics_params (arguments : dict) : res json :=
  (let params :=
     [("fields", JStr "conversation_analytics.start(start_date).end(end_date).granularity(DAILY).dimensions(conversation_type,conversation_direction)")] in
   params <-
     (if py_truthy (arg_get arguments "start_date") then
        v <- arg arguments "start_date" ;; Ok (params ++ [("start", v)])
      else Ok params) ;;
   params <-
     (if py_truthy (arg_get arguments "end_date") then
        v <- arg arguments "end_date" ;; Ok (params ++ [("end", v)])
      else Ok params) ;;
   Ok (JObj params))%res.

Definition call_get_analytics (arguments : dict) : IO (list TextContent) :=
  (params <- lift (analytics_params arguments) ;;
   result <- make_request "GET" WABA_ID (Some params) ;;
   ret [text_content ("## Analytics" +++ nl +++ nl +++ "```json" +++ nl
                      +++ json_dumps (Some 2) true result +++ nl +++ "```")])%io.

(** ** The dispatcher: [call_tool] *)

Definition call_tool (name : string) (arguments : dict) : IO (list TextContent) :=
  if String.eqb name "list_templates" then call_list_templates arguments
  else if String.eqb name "get_template" then call_get_template arguments
  else if String.eqb name "create_template" then call_create_template arguments
  else if String.eqb name "delete_template" then call_delete_template arguments
  else if String.eqb name "get_account_info" then call_get_account_info arguments
  else if String.eqb name "get_phone_numbers" then call_get_phone_numbers arguments
  else if String.eqb name "send_template_message" then
    call_send_template_message arguments
  else if String.eqb name "send_text_message" then call_send_text_message arguments
  else if String.eqb name "get_analytics" then call_get_analytics arguments
  else ret [text_content ("Unknown tool: " +++ name)].

(** ** Resources: [read_resource] *)

Definition templates_resource_query : json :=
  JObj [ ("fields", JStr "name,status,category,language,components");
         ("limit", JInt 50) ].

Definition read_resource (uri : string) : IO string :=
  if String.eqb uri "whatsapp://templates" then
    (result <- make_request "GET" (WABA_ID +++ "/message_templates")
                 (Some templates_resource_query) ;;
     ret (json_dumps (Some 2) false result))%io
  else if String.eqb uri "whatsapp://account" then
    (result <- make_request "GET" WABA_ID
                 (Some (JObj [("fields",
                               JStr "id,name,currency,timezone_id,message_template_namespace")])) ;;
     ret (json_dumps (Some 2) false result))%io
  else ret "{}".

(** ** Specification-side vocabulary

    The definitions below follow the words of the specification; the
    theorems compare them with the handlers above. *)

(** The entries of a [data] array whose field [f] is the string [S]. *)
Definition field_is (f S : string) (t : dict) : bool :=
  match dict_get f t with
  | Some (JStr s) => String.eqb s S
  | _ => false
  end.

(** An input button, read through its [type]. *)
Inductive button_in : Type :=
| QuickReply (text : json)
| UrlButton (text url : json)
| OtherButton (ty : json).

Definition is_button (j : json) (b : button_in) : Prop :=
  exists o, j = JObj o /\
    match b with
    | QuickReply text =>
        dict_get "type" o = Some (JStr "QUICK_REPLY") /\
        dict_get "text" o = Some text
    | UrlButton text url =>
        dict_get "type" o = Some (JStr "URL") /\
        dict_get "text" o = Some text /\
        dict_get "url" o = Some url
    | OtherButton ty =>
        dict_get "type" o = Some ty /\
        ty <> JStr "QUICK_REPLY" /\ ty <> JStr "URL"
    end.

Definition spec_button (b : button_in) : list json :=
  match b with
  | QuickReply text => [JObj [("type", JStr "QUICK_REPLY"); ("text", text)]]
  | UrlButton text url =>
      [JObj [("type", JStr "URL"); ("text", text); ("url", url)]]
  | OtherButton _ => []
  end.

Definition spec_buttons (bs : list button_in) : list json :=
  flat_map spec_button bs.

(** The typed view of schema-valid [create_template] arguments. *)
Record create_args : Type := mk_create_args {
  ca_header_text : option string;
  ca_body_text : string;
  ca_body_examples : list string;
  ca_footer_text : option string;
  ca_buttons : option (list button_in)
}.

Definition has_create_args (d : dict) (r : create_args) : Prop :=
  dict_get "header_text" d = option_map JStr (ca_header_text r) /\
  dict_get "body_text" d = Some (JStr (ca_body_text r)) /\
  dict_get "body_examples" d = Some (JArr (map JStr (ca_body_examples r))) /\
  dict_get "footer_text" d = option_map JStr (ca_footer_text r) /\
  match ca_buttons r with
  | None => dict_get "buttons" d = None
  | Some bs => exists js, dict_get "buttons" d = Some (JArr js) /\
                          Forall2 is_button js bs
  end.

Definition HEADER (text : string) : json :=
  JObj [("type", JStr "HEADER"); ("format", JStr "TEXT"); ("text", JStr text)].

Definition BODY (text examples : json) : json :=
  JObj [ ("type", JStr "BODY"); ("text", text);
         ("example", JObj [("body_text", JArr [examples])]) ].

Definition FOOTER (text : string) : json :=
  JObj [("type", JStr "FOOTER"); ("text", JStr text)].

Definition BUTTONS (buttons : list json) : json :=
  JObj [("type", JStr "BUTTONS"); ("buttons", JArr buttons)].

Definition body_of (r : create_args) : json :=
  BODY (JStr (ca_body_text r)) (JArr (map JStr (ca_body_examples r))).

Definition buttons_part (r : create_args) : list json :=
  match ca_buttons r with
  | Some (b :: bs) => [BUTTONS (spec_buttons (b :: bs))]
  | _ => []
  end.

(** HEADER?, BODY, FOOTER?, BUTTONS? with HEADER and FOOTER present as soon
    as their text is given. *)
Definition components_if_given (r : create_args) : list json :=
  match ca_header_text r with Some h => [HEADER h] | None => [] end
  ++ [body_of r]
  ++ match ca_footer_text r with Some f => [FOOTER f] | None => [] end
  ++ buttons_part r.

Definition nonempty_text (o : option string) : option string :=
  match o with
  | Some "" => None
  | _ => o
  end.

(** HEADER?, BODY, FOOTER?, BUTTONS? with HEADER and FOOTER present when
    their text is given and not empty. *)
Definition components_if_nonempty (r : create_args) : list json :=
  match nonempty_text (ca_header_text r) with Some h => [HEADER h] | None => [] end
  ++ [body_of r]
  ++ match nonempty_text (ca_footer_text r) with Some f => [FOOTER f] | None => [] end
  ++ buttons_part r.

(** [comp["example"]["body_text"][0]] *)
Definition extract_examples (comp : json) : res json :=
  (example <- py_getitem comp "example" ;;
   body_text <- py_getitem example "body_text" ;;
   py_getitem0 body_text)%res.

(** A parameter list argument: an array, or absent (then no parameters). *)
Definition has_parameters (d : dict) (key : string) (l : list json) : Prop :=
  dict_get key d = Some (JArr l) \/ (dict_get key d = None /\ l = []).

Definition spec_parameter_component (type : string) (l : list json) : list json :=
  match l with
  | [] => []
  | _ => [JObj [ ("type", JStr type);
                 ("parameters",
                  JArr (map (fun p => JObj [("type", JStr "text"); ("text", p)]) l)) ]]
  end.

Definition spec_text_payload (to message : json) : json :=
  JObj [ ("messaging_product", JStr "whatsapp");
         ("recipient_type", JStr "individual");
         ("to", to);
         ("type", JStr "text");
         ("text", JObj [("body", message)]) ].

(** The query of a request carries [key=v]. *)
Definition has_query (rq : http_request) (key : string) (v : json) : Prop :=
  exists q, rq_params rq = Some (JObj q) /\ dict_get key q = Some v.

(** The two requests that fetch the template list. *)
Definition list_templates_request : http_request :=
  mk_request "GET" (BASE_URL +++ "/" +++ WABA_ID +++ "/message_templates")
    headers (Some list_templates_query) None.

Definition templates_resource_request : http_request :=
  mk_request "GET" (BASE_URL +++ "/" +++ WABA_ID +++ "/message_templates")
    headers (Some templates_resource_query) None.

(** ** Sample inputs *)

Definition welcome_args : dict :=
  [ ("name", JStr "welcome_msg"); ("category", JStr "UTILITY");
    ("body_text", JStr "Hello {{1}}"); ("body_examples", JArr [JStr "Ana"]) ].

Definition empty_header_args : dict :=
  [ ("name", JStr "welcome_msg"); ("category", JStr "UTILITY");
    ("header_text", JStr "");
    ("body_text", JStr "Hello {{1}}"); ("body_examples", JArr [JStr "Ana"]) ].

Definition empty_header_view : create_args :=
  mk_create_args (Some "") "Hello {{1}}" ["Ana"] None None.

Definition hi_args : dict :=
  [("to", JStr "56912345678"); ("message", JStr "Hi")].

Definition no_messages_response : json := JObj [("messages", JArr [])].

Definition nameless_entry_response : json := JObj [("data", JArr [JObj []])].

Definition empty_remote : remote := fun _ => Ok (JObj [("data", JArr [])]).

Definition delete_args : dict := [("template_name", JStr "old_promo")].

Definition filter_args : dict :=
  [("status", JStr "APPROVED"); ("category", JStr "UTILITY")].

Definition sample_templates : list dict :=
  [ [("name", JStr "a"); ("status", JStr "APPROVED"); ("category", JStr "UTILITY")];
    [("name", JStr "b"); ("status", JStr "PENDING"); ("category", JStr "UTILITY")];
    [("name", JStr "c"); ("status", JStr "APPROVED"); ("category", JStr "MARKETING")];
    [("name", JStr "d")] ].

Definition send_args : dict :=
  [ ("to", JStr "56912345678"); ("template_name", JStr "welcome_msg");
    ("body_parameters", JArr [JStr "Ana"; JStr "Smate"]) ].

Definition sample_buttons : list json :=
  [ JObj [("type", JStr "QUICK_REPLY"); ("text", JStr "Yes")];
    JObj [("type", JStr "PHONE_NUMBER"); ("text", JStr "Call")];
    JObj [("type", JStr "URL"); ("text", JStr "Site");
          ("url", JStr "https://example.com")] ].

Definition sample_buttons_view : list button_in :=
  [ QuickReply (JStr "Yes");
    OtherButton (JStr "PHONE_NUMBER");
    UrlButton (JStr "Site") (JStr "https://example.com") ].

Definition full_args : dict :=
  [ ("name", JStr "promo"); ("category", JStr "MARKETING");
    ("header_text", JStr "Welcome");
    ("body_text", JStr "Hello {{1}}"); ("body_examples", JArr [JStr "Ana"]);
    ("footer_text", JStr "Bye");
    ("buttons", JArr sample_buttons) ].

Definition full_view : create_args :=
  mk_create_args (Some "Welcome") "Hello {{1}}" ["Ana"] (Some "Bye")
    (Some sample_buttons_view).

Definition plain_dumps : option nat -> bool -> json -> string :=
  fun _ _ _ => "{...}".

Definition plain_repr : json -> string := fun _ => "...".

Definition plain_exn : exn -> string := fun _ => "exception".

(** ** Further vocabulary for the properties of the handlers *)

(** The resources of [list_resources]. *)
Record Resource : Type := mk_resource {
  resource_uri : string;
  resource_name : string;
  resource_description : string;
  resource_mimeType : string
}.

Definition list_resources : list Resource :=
  [ mk_resource "whatsapp://templates" "WhatsApp Templates"
      "All message templates in the account" "application/json";
    mk_resource "whatsapp://account" "Account Info"
      "WhatsApp Business Account information" "application/json" ].

(** The shape shared by every request the server sends. *)
Definition well_formed_request (rq : http_request) : Prop :=
  rq_headers rq = headers /\
  (exists endpoint, rq_url rq = BASE_URL +++ "/" +++ endpoint) /\
  ((rq_method rq = "GET" /\ rq_json rq = None) \/
   (rq_method rq = "POST" /\ rq_params rq = None) \/
   (rq_method rq = "DELETE" /\ rq_params rq = None /\ rq_json rq = None)).

(** Nothing is sent, or one well-formed request is. *)
Definition sends_at_most_one {A : Type} (r : list http_request * res A) : Prop :=
  requests r = [] \/ exists rq, requests r = [rq] /\ well_formed_request rq.

(** Every request sent satisfies [P]. *)
Definition all_requests {A : Type} (P : http_request -> Prop)
  (r : list http_request * res A) : Prop :=
  forall rq, In rq (requests r) -> P rq.

(** The HTTP method each tool uses. *)
Definition method_of (name : string) : string :=
  if String.eqb name "create_template" then "POST"
  else if String.eqb name "send_template_message" then "POST"
  else if String.eqb name "send_text_message" then "POST"
  else if String.eqb name "delete_template" then "DELETE"
  else "GET".

(** Two dicts that answer every lookup alike. *)
Definition same_lookups (d d' : dict) : Prop :=
  forall k, dict_get k d = dict_get k d'.

Definition join (l : list string) : string :=
  fold_right String.append "" l.

(** Whether the filter on [field] keeps the entry [t]. *)
Definition keeps (arguments : dict) (field : string) (t : dict) : bool :=
  if py_truthy (arg_get arguments field)
  then py_eq (arg_get t field) (arg_get arguments field)
  else true.

Definition selected (arguments : dict) (ts : list dict) : list dict :=
  filter (fun t => keeps arguments "status" t && keeps arguments "category" t) ts.

Definition or_NA (t : dict) (field : string) : json :=
  arg_get_default t field (JStr "N/A").

Definition template_line (t : dict) : string :=
  "| " +++ str (arg_get t "name") +++ " | " +++ str (or_NA t "category")
  +++ " | " +++ str (or_NA t "status") +++ " | " +++ str (or_NA t "language")
  +++ " |" +++ nl.

Definition phone_lines (phone : dict) : string :=
  "- **" +++ str (arg_get phone "display_phone_number") +++ "** ("
  +++ str (arg_get phone "verified_name") +++ ")" +++ nl
  +++ "  - Quality: " +++ str (or_NA phone "quality_rating") +++ nl
  +++ "  - Limit: " +++ str (or_NA phone "messaging_limit_tier") +++ nl
  +++ "  - ID: " +++ str (arg_get phone "id") +++ nl +++ nl.

Definition get_template_by_name_request (arguments : dict) : http_request :=
  mk_request "GET" (BASE_URL +++ "/" +++ WABA_ID +++ "/message_templates") headers
    (Some (JObj [ ("fields", JStr "name,status,category,language,components");
                  ("name", arg_get arguments "template_name") ]))
    None.

Definition get_template_by_id_request (template_id : json) : http_request :=
  mk_request "GET" (BASE_URL +++ "/" +++ str template_id) headers
    (Some (JObj [("fields",
                  JStr "name,status,category,language,components,quality_score")]))
    None.

(** The [data] of a response object: an array, or absent. *)
Definition data_array (o : dict) (l : list json) : Prop :=
  dict_get "data" o = Some (JArr l) \/ (dict_get "data" o = None /\ l = []).

Definition account_info_request : http_request :=
  mk_request "GET" (BASE_URL +++ "/" +++ WABA_ID) headers
    (Some (JObj [("fields", JStr "id,name,currency,timezone_id,message_template_namespace,account_review_status,business_verification_status")]))
    None.

Definition analytics_fields : string :=
  "conversation_analytics.start(start_date).end(end_date).granularity(DAILY).dimensions(conversation_type,conversation_direction)".

(** [("key", v)] when the argument [from] is truthy. *)
Definition optional_param (arguments : dict) (from key : string) : dict :=
  if py_truthy (arg_get arguments from) then [(key, arg_get arguments from)] else [].

(** The required keys that the handlers read with [arguments[...]]. *)
Definition subscripted (tool key : string) : bool :=
  negb (String.eqb tool "send_template_message" && String.eqb key "body_parameters").

(** What the [except] branch of [create_template] returns. *)
Definition exception_text (e : exn) : list TextContent :=
  [text_content ("Exception creating template: " +++ exn_str e +++ nl
                 +++ format_exc e)].

Definition error_response : dict :=
  [("error", JObj [("message", JStr "Invalid OAuth access token")])].

Definition no_type_button_args : dict :=
  [ ("name", JStr "promo"); ("category", JStr "MARKETING");
    ("body_text", JStr "Hello"); ("body_examples", JArr []);
    ("buttons", JArr [JObj [("text", JStr "Yes")]]) ].

Definition bare_send_args : dict :=
  [("to", JStr "56912345678"); ("template_name", JStr "welcome_msg")].

(** A remote that answers with 51 templates, whatever it is asked. *)
Definition crowded_remote : remote :=
  fun _ => Ok (JObj [("data", JArr (repeat (JObj [("name", JStr "t")]) 51))]).

Definition down_remote (e : exn) : remote := fun _ => Raise e.

Definition one_template_remote : remote :=
  fun _ => Ok (JObj [("data", JArr [JObj [("name", JStr "a"); ("status", JStr "APPROVED")];
                                    JObj [("name", JStr "b")]])]).

Definition created_remote : remote :=
  fun _ => Ok (JObj [("id", JStr "1234")]).

Definition sent_remote : remote :=
  fun _ => Ok (JObj [("messages", JArr [JObj [("id", JStr "wamid.1")]])]).

Definition deleted_remote : remote :=
  fun _ => Ok (JObj [("success", JBool true)]).

(** ** Basic facts about the Python operators *)

Lemma py_eq_JStr (x : json) (s : string) :
  py_eq x (JStr s) = true <-> x = JStr s.
Proof.
  destruct x; simpl; split; intro H; try discriminate.
  - apply String.eqb_eq in H. now subst.
  - injection H as ->. apply String.eqb_refl.
Qed.

Lemma py_eq_JStr_false (x : json) (s : string) :
  x <> JStr s -> py_eq x (JStr s) = false.
Proof.
  intro H. destruct (py_eq x (JStr s)) eqn:E; [|reflexivity].
  apply py_eq_JStr in E. contradiction.
Qed.

Lemma py_truthy_JStr (s : string) :
  py_truthy (JStr s) = true <-> s <> "".
Proof.
  simpl. rewrite negb_true_iff. apply String.eqb_neq.
Qed.

Lemma dict_get_In (k : string) (v : json) (d : dict) :
  wf_dict d -> In (k, v) d -> dict_get k d = Some v.
Proof.
  unfold wf_dict, keys. induction d as [|[k' v'] d IH]; simpl; intros ND HIn.
  - contradiction.
  - inversion ND as [|? ? Hnotin ND']; subst.
    destruct HIn as [Heq|HIn].
    + injection Heq as -> ->. now rewrite String.eqb_refl.
    + destruct (String.eqb k k') eqn:E.
      * apply String.eqb_eq in E. subst k'. exfalso. apply Hnotin.
        change k with (fst (k, v)). now apply in_map.
      * now apply IH.
Qed.

Lemma dict_get_Some_In (k : string) (v : json) (d : dict) :
  dict_get k d = Some v -> In (k, v) d.
Proof.
  induction d as [|[k' v'] d IH]; simpl; [discriminate|].
  destruct (String.eqb k k') eqn:E.
  - apply String.eqb_eq in E. subst. intro H. injection H as ->. now left.
  - intro H. right. now apply IH.
Qed.

(** Lookup in a dict does not depend on the order its keys were inserted. *)
Lemma dict_get_perm (k : string) (d d' : dict) :
  wf_dict d -> Permutation d d' -> dict_get k d' = dict_get k d.
Proof.
  intros ND P.
  assert (ND' : wf_dict d').
  { unfold wf_dict, keys in *. eapply Permutation_NoDup; [|exact ND].
    now apply Permutation_map. }
  destruct (dict_get k d) as [v|] eqn:E.
  - apply dict_get_In; [exact ND'|].
    eapply Permutation_in; [exact P|]. now apply dict_get_Some_In.
  - destruct (dict_get k d') as [v'|] eqn:E'; [|reflexivity].
    apply dict_get_Some_In in E'.
    apply Permutation_sym in P.
    apply (Permutation_in _ P) in E'.
    apply (dict_get_In _ _ _ ND) in E'. congruence.
Qed.

Lemma arg_Some (d : dict) (k : string) (v : json) :
  dict_get k d = Some v -> arg d k = Ok v.
Proof. unfold arg; simpl. now intros ->. Qed.

Lemma arg_get_Some (d : dict) (k : string) (v : json) :
  dict_get k d = Some v -> arg_get d k = v.
Proof. unfold arg_get. now intros ->. Qed.

Lemma arg_get_None (d : dict) (k : string) :
  dict_get k d = None -> arg_get d k = JNull.
Proof. unfold arg_get. now intros ->. Qed.

(** ** One request per call *)

Lemma requests_send (A : Type) (rq : http_request) (k : json -> res A) (w : remote) :
  requests (bind (http_send rq) (fun x => lift (k x)) w) = [rq].
Proof.
  unfold requests, bind, http_send, lift. destruct (w rq); reflexivity.
Qed.

Lemma outcome_send (A : Type) (rq : http_request) (k : json -> res A) (w : remote) :
  outcome (bind (http_send rq) (fun x => lift (k x)) w) = rbind (w rq) k.
Proof.
  unfold outcome, bind, http_send, lift. destruct (w rq); reflexivity.
Qed.

Lemma bind_lift_Ok (A B : Type) (a : A) (k : A -> IO B) (w : remote) :
  bind (lift (Ok a)) k w = k a w.
Proof.
  unfold bind, lift. destruct (k a w) as [t r]. reflexivity.
Qed.

Lemma bind_lift_Raise (A B : Type) (e : exn) (k : A -> IO B) (w : remote) :
  bind (lift (Raise e)) k w = ([], Raise e).
Proof. reflexivity. Qed.

(** ** Free-form text messages *)

Lemma send_text_payload_spec (arguments : dict) (to message : json) :
  dict_get "to" arguments = Some to ->
  dict_get "message" arguments = Some message ->
  send_text_payload arguments = Ok (spec_text_payload to message).
Proof.
  intros Hto Hmsg. unfold send_text_payload.
  rewrite (arg_Some _ _ _ Hto), (arg_Some _ _ _ Hmsg). reflexivity.
Qed.

(** C7: for every [send_text_message] call with recipient [to] and text
    [message], exactly one request is sent, a POST to
    [{PHONE_NUMBER_ID}/messages] with no query, whose JSON body is
    [{messaging_product: "whatsapp", recipient_type: "individual", to: to,
      type: "text", text: {body: message}}]. *)
Theorem send_text_message_request_body
  (arguments : dict) (to message : json) (w : remote) :
  dict_get "to" arguments = Some to ->
  dict_get "message" arguments = Some message ->
  requests (call_tool "send_text_message" arguments w) =
    [ mk_request "POST" (BASE_URL +++ "/" +++ PHONE_NUMBER_ID +++ "/messages")
        headers None
        (Some (JObj [ ("messaging_product", JStr "whatsapp");
                      ("recipient_type", JStr "individual");
                      ("to", to);
                      ("type", JStr "text");
                      ("text", JObj [("body", message)]) ])) ].
Proof.
  intros Hto Hmsg.
  change (call_tool "send_text_message" arguments)
    with (call_send_text_message arguments).
  unfold call_send_text_message.
  rewrite (send_text_payload_spec _ _ _ Hto Hmsg), bind_lift_Ok.
  unfold make_request; simpl String.eqb; cbv iota.
  apply requests_send.
Qed.

(** ** Unknown tools *)

Lemma eqb_not_in_catalog (name known : string) :
  ~ In name catalog -> In known catalog -> String.eqb name known = false.
Proof.
  intros Hout Hin. apply String.eqb_neq. intros ->. contradiction.
Qed.

(** C9: for every tool name outside the nine-operation catalog and any
    arguments, the dispatcher sends no request and returns the single text
    block ["Unknown tool: " + name]; it does not raise. *)
Theorem unknown_tool_notice (name : string) (arguments : dict) (w : remote) :
  ~ In name catalog ->
  call_tool name arguments w =
    ([], Ok [text_content ("Unknown tool: " +++ name)]).
Proof.
  intro Hout. unfold call_tool.
  repeat (rewrite (eqb_not_in_catalog name _ Hout) by (simpl; tauto)).
  reflexivity.
Qed.

(** ** Deleting a template *)

(** C1: what [delete_template] really sends.  The handler hands
    [{"name": template_name}] to [make_request], whose DELETE branch passes
    neither [params] nor a body to the HTTP client: the single outbound
    request carries no query at all, hence no [name=template_name]. *)
Theorem delete_template_request_drops_name
  (arguments : dict) (template_name : json) (w : remote) :
  dict_get "template_name" arguments = Some template_name ->
  requests (call_tool "delete_template" arguments w) =
    [ mk_request "DELETE" (BASE_URL +++ "/" +++ WABA_ID +++ "/message_templates")
        headers None None ] /\
  forall rq, In rq (requests (call_tool "delete_template" arguments w)) ->
             ~ has_query rq "name" template_name.
Proof.
  intro Hname.
  assert (E : requests (call_tool "delete_template" arguments w) =
    [ mk_request "DELETE" (BASE_URL +++ "/" +++ WABA_ID +++ "/message_templates")
        headers None None ]).
  { change (call_tool "delete_template" arguments)
      with (call_delete_template arguments).
    unfold call_delete_template.
    rewrite (arg_Some _ _ _ Hname), bind_lift_Ok.
    unfold make_request; simpl String.eqb; cbv iota.
    apply requests_send. }
  split; [exact E|].
  intros rq Hin [q [Hq _]]. rewrite E in Hin.
  destruct Hin as [<-|[]]. discriminate Hq.
Qed.

(** The sibling GET branch does forward its [data] as the query. *)
Lemma make_request_get_forwards_query (endpoint : string) (data : json) (w : remote) :
  requests (make_request "GET" endpoint (Some data) w) =
    [mk_request "GET" (BASE_URL +++ "/" +++ endpoint) headers (Some data) None].
Proof. reflexivity. Qed.

Lemma requests_send_ret (A : Type) (rq : http_request) (k : json -> A) (w : remote) :
  requests (bind (http_send rq) (fun x => ret (k x)) w) = [rq].
Proof.
  unfold requests, bind, http_send, ret. destruct (w rq); reflexivity.
Qed.

(** ** Filtering the template list *)

Lemma py_eq_field_is (f S : string) (t : dict) :
  py_eq (match dict_get f t with Some v => v | None => JNull end) (JStr S)
  = field_is f S t.
Proof.
  unfold field_is. destruct (dict_get f t) as [[| | | | |]|]; reflexivity.
Qed.

Lemma filter_res_field (arguments : dict) (f S : string) (ts : list dict) :
  dict_get f arguments = Some (JStr S) ->
  filter_res (fun t => (v <- py_get t f ;;
                        a <- arg arguments f ;;
                        Ok (py_eq v a))%res) (map JObj ts)
  = Ok (map JObj (filter (field_is f S) ts)).
Proof.
  intro Hf. induction ts as [|t ts IH]; [reflexivity|].
  cbn [map filter_res]. rewrite IH.
  unfold py_get, py_get_default. rewrite (arg_Some _ _ _ Hf).
  assert (E : (match dict_get f t with Some v => Ok v | None => Ok JNull end)
              = Ok (match dict_get f t with Some v => v | None => JNull end)).
  { destruct (dict_get f t); reflexivity. }
  rewrite E. cbn [rbind filter]. rewrite py_eq_field_is.
  destruct (field_is f S t); reflexivity.
Qed.

Lemma filter_by_field (arguments : dict) (f S : string) (ts : list dict) :
  S <> "" ->
  dict_get f arguments = Some (JStr S) ->
  filter_by arguments f (JArr (map JObj ts))
  = Ok (JArr (map JObj (filter (field_is f S) ts))).
Proof.
  intros HS Hf. unfold filter_by.
  rewrite (arg_get_Some _ _ _ Hf).
  apply py_truthy_JStr in HS. rewrite HS.
  cbn [py_iter rbind]. rewrite (filter_res_field _ _ _ _ Hf). reflexivity.
Qed.

Lemma filter_by_absent (arguments : dict) (f : string) (data : json) :
  dict_get f arguments = None -> filter_by arguments f data = Ok data.
Proof.
  intro Hf. unfold filter_by. rewrite (arg_get_None _ _ Hf). reflexivity.
Qed.

Lemma filter_twice (A : Type) (p q : A -> bool) (l : list A) :
  filter q (filter p l) = filter (fun x => p x && q x) l.
Proof.
  induction l as [|x l IH]; [reflexivity|].
  simpl. destruct (p x); simpl; [destruct (q x)|]; now rewrite IH.
Qed.

(** C5: on a [data] array of objects, [list_templates] called with a status
    [S] and a category [C] (non-empty strings, as the schema's enums are)
    keeps, in order, exactly the entries whose [status] is [S] and whose
    [category] is [C]; called with neither argument it leaves [data] as it
    is. *)
Theorem filter_templates_and_identity (arguments : dict) :
  (forall S C ts,
     S <> "" -> C <> "" ->
     dict_get "status" arguments = Some (JStr S) ->
     dict_get "category" arguments = Some (JStr C) ->
     filter_templates arguments (JArr (map JObj ts))
     = Ok (JArr (map JObj
             (filter (fun t => field_is "status" S t && field_is "category" C t)
                     ts)))) /\
  (forall data,
     dict_get "status" arguments = None ->
     dict_get "category" arguments = None ->
     filter_templates arguments data = Ok data).
Proof.
  split.
  - intros S C ts HS HC Hs Hc. unfold filter_templates.
    rewrite (filter_by_field _ _ _ _ HS Hs). cbn [rbind].
    rewrite (filter_by_field _ _ _ _ HC Hc), filter_twice. reflexivity.
  - intros data Hs Hc. unfold filter_templates.
    rewrite (filter_by_absent _ _ _ Hs). cbn [rbind].
    apply filter_by_absent; exact Hc.
Qed.

(** ** Template messages *)

Lemma parameter_component_spec
  (arguments : dict) (key type : string) (l components : list json) :
  has_parameters arguments key l ->
  parameter_component arguments key type components
  = Ok (components ++ spec_parameter_component type l).
Proof.
  unfold parameter_component. intros [H | [H ->]].
  - rewrite (arg_get_Some _ _ _ H). destruct l as [|p l].
    + simpl. now rewrite app_nil_r.
    + cbn [py_truthy]. rewrite (arg_Some _ _ _ H). reflexivity.
  - rewrite (arg_get_None _ _ H). simpl. now rewrite app_nil_r.
Qed.

Lemma send_template_components_spec (arguments : dict) (hp bp : list json) :
  has_parameters arguments "header_parameters" hp ->
  has_parameters arguments "body_parameters" bp ->
  send_template_components arguments
  = Ok (spec_parameter_component "header" hp ++ spec_parameter_component "body" bp).
Proof.
  intros Hh Hb. unfold send_template_components.
  rewrite (parameter_component_spec _ _ _ _ _ Hh). cbn [rbind app].
  apply parameter_component_spec; exact Hb.
Qed.

(** C6: for every [send_template_message] call, the [components] of the
    payload's [template] are: a [header] component, holding one
    [{type: "text", text: p}] per entry of [header_parameters] in order,
    exactly when that list is non-empty; then a [body] component, likewise,
    exactly when [body_parameters] is non-empty; header first; the empty
    list when both are empty.  That payload is the body of the one POST
    sent to [{PHONE_NUMBER_ID}/messages]. *)
Theorem send_template_message_components
  (arguments : dict) (hp bp : list json) (to template_name : json) (w : remote) :
  has_parameters arguments "header_parameters" hp ->
  has_parameters arguments "body_parameters" bp ->
  dict_get "to" arguments = Some to ->
  dict_get "template_name" arguments = Some template_name ->
  let components :=
    spec_parameter_component "header" hp ++ spec_parameter_component "body" bp in
  send_template_components arguments = Ok components /\
  (hp = [] -> bp = [] -> components = []) /\
  requests (call_tool "send_template_message" arguments w) =
    [ mk_request "POST" (BASE_URL +++ "/" +++ PHONE_NUMBER_ID +++ "/messages")
        headers None
        (Some (JObj [ ("messaging_product", JStr "whatsapp");
                      ("recipient_type", JStr "individual");
                      ("to", to);
                      ("type", JStr "template");
                      ("template",
                       JObj [ ("name", template_name);
                              ("language",
                               JObj [("code",
                                      arg_get_default arguments "language"
                                        (JStr "es_CL"))]);
                              ("components", JArr components) ]) ])) ].
Proof.
  intros Hh Hb Hto Hname components.
  pose proof (send_template_components_spec _ _ _ Hh Hb) as Hc.
  split; [exact Hc|]. split.
  - intros -> ->. reflexivity.
  - change (call_tool "send_template_message" arguments)
      with (call_send_template_message arguments).
    unfold call_send_template_message, send_template_payload.
    rewrite Hc. cbn [rbind].
    rewrite (arg_Some _ _ _ Hto), (arg_Some _ _ _ Hname). cbn [rbind].
    rewrite bind_lift_Ok.
    unfold make_request; simpl String.eqb; cbv iota.
    apply requests_send.
Qed.

(** ** Building the components of a new template *)

Lemma build_buttons_spec (js : list json) (bs : list button_in) :
  Forall2 is_button js bs ->
  forall acc, build_buttons js acc = Ok (acc ++ spec_buttons bs).
Proof.
  induction 1 as [|j b js bs Hb _ IH]; intro acc.
  - simpl. now rewrite app_nil_r.
  - destruct Hb as [o [-> Hb]].
    cbn [build_buttons py_getitem spec_buttons flat_map].
    destruct b as [text | text url | ty].
    + destruct Hb as [Hty Htext]. rewrite Hty, Htext. cbn.
      rewrite IH, <- app_assoc. reflexivity.
    + destruct Hb as [Hty [Htext Hurl]]. rewrite Hty, Htext, Hurl. cbn.
      rewrite IH, <- app_assoc. reflexivity.
    + destruct Hb as [Hty [Hqr Hurl]]. rewrite Hty. cbn [rbind].
      rewrite (py_eq_JStr_false _ _ Hqr), (py_eq_JStr_false _ _ Hurl).
      apply IH.
Qed.

Lemma truthy_arg (d : dict) (k : string) :
  py_truthy (arg_get d k) = true -> exists v, arg d k = Ok v.
Proof.
  unfold arg_get, arg, py_getitem.
  destruct (dict_get k d) as [v|]; [eauto|discriminate].
Qed.

Lemma body_component_spec (arguments : dict) (body_text E : json) :
  dict_get "body_text" arguments = Some body_text ->
  dict_get "body_examples" arguments = Some E ->
  body_component arguments = Ok (BODY body_text E).
Proof.
  intros Ht He. unfold body_component.
  rewrite (arg_Some _ _ _ Ht), (arg_Some _ _ _ He). reflexivity.
Qed.

Lemma optional_text_component (d : dict) (k : string) (o : option string)
  (mk : json -> json) (components : list json) :
  dict_get k d = option_map JStr o ->
  (if py_truthy (arg_get d k)
   then (text <- arg d k ;; Ok (components ++ [mk text]))%res
   else Ok components)
  = Ok (components ++ match nonempty_text o with
                      | Some s => [mk (JStr s)]
                      | None => []
                      end).
Proof.
  intro H. destruct o as [[|c s]|]; simpl in H.
  - rewrite (arg_get_Some _ _ _ H). simpl. now rewrite app_nil_r.
  - rewrite (arg_get_Some _ _ _ H), (arg_Some _ _ _ H). reflexivity.
  - rewrite (arg_get_None _ _ H). simpl. now rewrite app_nil_r.
Qed.

Lemma create_template_components_spec (d : dict) (r : create_args) :
  has_create_args d r ->
  create_template_components d = Ok (components_if_nonempty r).
Proof.
  intros [Hh [Ht [He [Hf Hb]]]].
  unfold create_template_components, components_if_nonempty.
  rewrite (optional_text_component d "header_text" _
             (fun t => JObj [("type", JStr "HEADER"); ("format", JStr "TEXT");
                             ("text", t)]) [] Hh).
  cbn [rbind]. rewrite (body_component_spec _ _ _ Ht He). cbn [rbind].
  rewrite (optional_text_component d "footer_text" _
             (fun t => JObj [("type", JStr "FOOTER"); ("text", t)]) _ Hf).
  cbn [rbind]. unfold buttons_part, body_of.
  destruct (ca_buttons r) as [bs|].
  - destruct Hb as [js [Hjs HF]]. rewrite (arg_get_Some _ _ _ Hjs).
    destruct HF as [|j b js bs Hj HF].
    + simpl. unfold HEADER, FOOTER.
      now rewrite app_nil_r, <- !app_assoc.
    + cbn [py_truthy]. rewrite (arg_Some _ _ _ Hjs). cbn [rbind py_iter].
      rewrite (build_buttons_spec _ _ (Forall2_cons _ _ Hj HF)).
      cbn [rbind app]. unfold HEADER, FOOTER, BUTTONS.
      now rewrite <- !app_assoc.
  - rewrite (arg_get_None _ _ Hb). simpl. unfold HEADER, FOOTER.
    now rewrite app_nil_r, <- !app_assoc.
Qed.

Lemma has_create_args_perm (d d' : dict) (r : create_args) :
  wf_dict d -> Permutation d d' -> has_create_args d r -> has_create_args d' r.
Proof.
  intros ND P. unfold has_create_args.
  rewrite !(dict_get_perm _ d d' ND P).
  destruct (ca_buttons r); rewrite ?(dict_get_perm _ d d' ND P); auto.
Qed.

(** C3 (amended): for schema-valid [create_template] arguments, in whatever
    order their keys were inserted, the built components are, in this
    order: HEADER (present iff [header_text] is given and not empty), BODY
    (always), FOOTER (present iff [footer_text] is given and not empty),
    BUTTONS (present iff a non-empty [buttons] list is given). *)
Theorem components_order_fixed (r : create_args) (d d' : dict) :
  wf_dict d ->
  Permutation d d' ->
  has_create_args d r ->
  create_template_components d' =
    Ok (match nonempty_text (ca_header_text r) with
        | Some h => [HEADER h]
        | None => []
        end
        ++ [BODY (JStr (ca_body_text r)) (JArr (map JStr (ca_body_examples r)))]
        ++ match nonempty_text (ca_footer_text r) with
           | Some f => [FOOTER f]
           | None => []
           end
        ++ match ca_buttons r with
           | Some (b :: bs) => [BUTTONS (spec_buttons (b :: bs))]
           | _ => []
           end).
Proof.
  intros ND P H.
  apply (create_template_components_spec d' r).
  exact (has_create_args_perm d d' r ND P H).
Qed.

(** C4: for every value [E] passed as [body_examples], the BODY component
    is [{type: "BODY", text: body_text, example: {body_text: [E]}}]: its
    example wraps [E] in a one-element list, [example["body_text"][0]] gives
    [E] back, and every component list the builder returns contains it. *)
Theorem body_examples_wrapped_once (arguments : dict) (body_text E : json) :
  dict_get "body_text" arguments = Some body_text ->
  dict_get "body_examples" arguments = Some E ->
  body_component arguments =
    Ok (JObj [ ("type", JStr "BODY"); ("text", body_text);
               ("example", JObj [("body_text", JArr [E])]) ]) /\
  extract_examples (BODY body_text E) = Ok E /\
  forall components,
    create_template_components arguments = Ok components ->
    In (BODY body_text E) components.
Proof using.
  intros Ht He. split; [exact (body_component_spec _ _ _ Ht He)|].
  split; [reflexivity|].
  intro components. unfold create_template_components.
  rewrite (body_component_spec _ _ _ Ht He).
  destruct (py_truthy (arg_get arguments "header_text"));
    [destruct (arg arguments "header_text")|]; cbn [rbind]; try discriminate;
  (destruct (py_truthy (arg_get arguments "footer_text"));
    [destruct (arg arguments "footer_text")|]; cbn [rbind]; try discriminate);
  (destruct (py_truthy (arg_get arguments "buttons"));
    [destruct (arg arguments "buttons") as [b|]; cbn [rbind]; try discriminate;
     destruct (py_iter b) as [l|]; cbn [rbind]; try discriminate;
     destruct (build_buttons l []); cbn [rbind]; try discriminate|]);
  intro H; injection H as <-; simpl; auto 8.
Qed.

(** C8: every input button of type QUICK_REPLY or URL is mapped, in input
    order, to [{type, text}] or [{type, text, url}]; a button of any other
    type adds nothing; and the component list is built, ending with the
    BUTTONS component that holds exactly the mapped buttons. *)
Theorem buttons_mapped_unknown_skipped
  (arguments : dict) (js : list json) (bs : list button_in) (body_text E : json) :
  Forall2 is_button js bs ->
  build_buttons js [] = Ok (flat_map spec_button bs) /\
  (js <> [] ->
   dict_get "buttons" arguments = Some (JArr js) ->
   dict_get "body_text" arguments = Some body_text ->
   dict_get "body_examples" arguments = Some E ->
   exists before,
     create_template_components arguments =
       Ok (before ++ [JObj [ ("type", JStr "BUTTONS");
                             ("buttons", JArr (flat_map spec_button bs)) ]])).
Proof.
  intro HF.
  pose proof (build_buttons_spec js bs HF []) as Hb. cbn [app] in Hb.
  split; [exact Hb|].
  intros Hne Hjs Ht He. unfold create_template_components.
  assert (Htruthy : py_truthy (arg_get arguments "buttons") = true).
  { rewrite (arg_get_Some _ _ _ Hjs). destruct js; [contradiction|reflexivity]. }
  rewrite Htruthy, (arg_Some _ _ _ Hjs), (body_component_spec _ _ _ Ht He).
  destruct (py_truthy (arg_get arguments "header_text")) eqn:Eh;
    [destruct (truthy_arg _ _ Eh) as [h ->]|];
  (destruct (py_truthy (arg_get arguments "footer_text")) eqn:Ef;
    [destruct (truthy_arg _ _ Ef) as [f ->]|]);
  cbn [rbind py_iter]; rewrite Hb; cbn [rbind]; eexists; reflexivity.
Qed.

(** The [try]/[except] of [create_template] turns every exception into a
    text result. *)
Lemma create_template_never_raises (arguments : dict) (w : remote) :
  exists content, outcome (call_tool "create_template" arguments w) = Ok content.
Proof.
  change (call_tool "create_template" arguments)
    with (call_create_template arguments).
  unfold call_create_template, try_except, outcome.
  match goal with |- context [match ?m w with _ => _ end] => destruct (m w) as [t [a|e]] end;
    simpl; eauto.
Qed.

(** ** Formatting remote responses *)

Lemma py_in_absent (k : string) (o : dict) :
  dict_get k o = None -> py_in k (JObj o) = Ok false.
Proof. intro H. unfold py_in, dict_mem. now rewrite H. Qed.

(** An object-shaped response without the success key of the operation is
    rendered as an error text that contains the serialized response. *)
Lemma missing_success_key_is_rendered (arguments : dict) (o : dict) :
  (dict_get "data" o = None ->
   format_list_templates arguments (JObj o)
   = Ok [text_content ("Error: " +++ json_dumps None true (JObj o))]) /\
  (dict_get "id" o = None ->
   format_create_template arguments (JObj o)
   = Ok [text_content ("Error creating template: "
                       +++ json_dumps (Some 2) true (JObj o))]) /\
  (dict_get "success" o = None ->
   forall template_name,
     format_delete_template template_name (JObj o)
     = Ok [text_content ("Error: " +++ json_dumps None true (JObj o))]) /\
  (dict_get "messages" o = None ->
   forall headline,
     format_send headline arguments (JObj o)
     = Ok [text_content ("Error sending message: "
                         +++ json_dumps (Some 2) true (JObj o))]).
Proof.
  repeat split.
  - intro H. unfold format_list_templates. now rewrite (py_in_absent _ _ H).
  - intro H. unfold format_create_template. now rewrite (py_in_absent _ _ H).
  - intros H template_name. unfold format_delete_template, py_get, py_get_default.
    now rewrite H.
  - intros H headline. unfold format_send. now rewrite (py_in_absent _ _ H).
Qed.

(** C2: where the formatters do raise.  A response that has the success key
    but not the shape behind it is not degraded to text: [{"messages": []}]
    makes both send operations raise [IndexError] at [result["messages"][0]],
    and [{"data": [{}]}] makes an unfiltered [list_templates] raise
    [KeyError] at [t['name']]; neither handler catches it. *)
Theorem malformed_success_response_raises :
  (forall headline arguments,
     format_send headline arguments no_messages_response = Raise IndexError) /\
  format_list_templates [] nameless_entry_response = Raise (KeyError "name") /\
  outcome (call_tool "send_text_message" hi_args
             (fun _ => Ok no_messages_response)) = Raise IndexError /\
  outcome (call_tool "list_templates" []
             (fun _ => Ok nameless_entry_response)) = Raise (KeyError "name").
Proof.
  repeat split.
Qed.


(** ** How requests and outcomes compose *)

Lemma requests_bind (A B : Type) (m : IO A) (k : A -> IO B) (w : remote) :
  requests (bind m k w) =
  requests (m w) ++ match outcome (m w) with
                    | Ok a => requests (k a w)
                    | Raise _ => []
                    end.
Proof.
  unfold requests, outcome, bind. destruct (m w) as [t [a|e]]; simpl.
  - destruct (k a w); reflexivity.
  - now rewrite app_nil_r.
Qed.

Lemma outcome_bind (A B : Type) (m : IO A) (k : A -> IO B) (w : remote) :
  outcome (bind m k w) =
  match outcome (m w) with
  | Ok a => outcome (k a w)
  | Raise e => Raise e
  end.
Proof.
  unfold outcome, bind. destruct (m w) as [t [a|e]]; simpl; [|reflexivity].
  destruct (k a w); reflexivity.
Qed.

Lemma requests_try_ret (A : Type) (m : IO A) (h : exn -> A) (w : remote) :
  requests (try_except m (fun e => ret (h e)) w) = requests (m w).
Proof.
  unfold requests, try_except, ret. destruct (m w) as [t [a|e]]; simpl;
    [reflexivity|apply app_nil_r].
Qed.

Lemma outcome_try_ret (A : Type) (m : IO A) (h : exn -> A) (w : remote) :
  outcome (try_except m (fun e => ret (h e)) w) =
  match outcome (m w) with
  | Ok a => Ok a
  | Raise e => Ok (h e)
  end.
Proof.
  unfold outcome, try_except, ret. destruct (m w) as [t [a|e]]; reflexivity.
Qed.

Lemma make_request_sends (method endpoint : string) (data : option json) (w : remote) :
  sends_at_most_one (make_request method endpoint data w).
Proof.
  unfold make_request.
  destruct (String.eqb method "GET");
    [|destruct (String.eqb method "POST");
      [|destruct (String.eqb method "DELETE"); [|left; reflexivity]]];
  right; eexists; (split; [reflexivity|]);
  (split; [reflexivity|]); (split; [eexists; reflexivity|]); simpl; tauto.
Qed.

Lemma sends_after_silence (A B : Type) (m : IO A) (k : A -> IO B) (w : remote) :
  requests (m w) = [] ->
  (forall a, sends_at_most_one (k a w)) ->
  sends_at_most_one (bind m k w).
Proof.
  intros Hm Hk. unfold sends_at_most_one. rewrite requests_bind, Hm. simpl.
  destruct (outcome (m w)) as [a|e]; [apply Hk|now left].
Qed.

Lemma sends_then_silence (A B : Type) (m : IO A) (k : A -> IO B) (w : remote) :
  sends_at_most_one (m w) ->
  (forall a, requests (k a w) = []) ->
  sends_at_most_one (bind m k w).
Proof.
  intros Hm Hk. unfold sends_at_most_one. rewrite requests_bind.
  assert (E : match outcome (m w) with
              | Ok a => requests (k a w)
              | Raise _ => []
              end = []).
  { destruct (outcome (m w)); [apply Hk|reflexivity]. }
  rewrite E, app_nil_r. exact Hm.
Qed.

Ltac one_request :=
  lazymatch goal with
  | |- sends_at_most_one (bind (lift _) _ _) =>
      apply sends_after_silence; [reflexivity|intro; one_request]
  | |- sends_at_most_one (bind _ _ _) =>
      apply sends_then_silence; [one_request|intro; reflexivity]
  | |- sends_at_most_one (make_request _ _ _ _) => apply make_request_sends
  | |- sends_at_most_one ((if ?b then _ else _) _) => destruct b; one_request
  | |- sends_at_most_one _ => left; reflexivity
  end.

(** X1: whatever the tool name, the arguments and the remote, a tool call
    sends no request or exactly one (no retry, no second call), and the
    request it sends carries the bearer-token and content-type headers, goes
    to a path under the versioned base URL, and is a GET without body, a
    POST without query, or a DELETE with neither. *)
Theorem call_tool_sends_at_most_one (name : string) (arguments : dict) (w : remote) :
  sends_at_most_one (call_tool name arguments w).
Proof.
  unfold call_tool.
  repeat match goal with
         | |- context [if String.eqb name ?s then _ else _] =>
             destruct (String.eqb name s)
         end.
  - unfold call_list_templates. one_request.
  - unfold call_get_template. one_request.
  - unfold call_create_template, sends_at_most_one.
    rewrite requests_try_ret. fold (sends_at_most_one
      (bind (lift (create_template_payload arguments))
         (fun payload =>
            bind (make_request "POST" (WABA_ID +++ "/message_templates") (Some payload))
              (fun result => lift (format_create_template arguments result))) w)).
    one_request.
  - unfold call_delete_template. one_request.
  - unfold call_get_account_info. one_request.
  - unfold call_get_phone_numbers. one_request.
  - unfold call_send_template_message. one_request.
  - unfold call_send_text_message. one_request.
  - unfold call_get_analytics. one_request.
  - left. reflexivity.
Qed.

(** X2: [read_resource] sends one well-formed GET for each URI that
    [list_resources] announces, and for any other URI sends nothing and
    returns the text of the empty JSON object. *)
Theorem read_resource_serves_listed_uris (uri : string) (w : remote) :
  (In uri (map resource_uri list_resources) ->
   exists rq, requests (read_resource uri w) = [rq] /\
              rq_method rq = "GET" /\ well_formed_request rq) /\
  (~ In uri (map resource_uri list_resources) ->
   read_resource uri w = ([], Ok "{}")).
Proof.
  split.
  - intros [<- | [<- | []]].
    + eexists. split; [apply requests_send_ret|]. split; [reflexivity|].
      split; [reflexivity|]. split; [eexists; reflexivity|]. simpl; tauto.
    + eexists. split; [apply requests_send_ret|]. split; [reflexivity|].
      split; [reflexivity|]. split; [eexists; reflexivity|]. simpl; tauto.
  - intro Hout. unfold read_resource.
    destruct (String.eqb uri "whatsapp://templates") eqn:E1.
    { apply String.eqb_eq in E1. subst. exfalso. apply Hout. simpl. tauto. }
    destruct (String.eqb uri "whatsapp://account") eqn:E2.
    { apply String.eqb_eq in E2. subst. exfalso. apply Hout. simpl. tauto. }
    reflexivity.
Qed.

(** ** Faults: an unreachable remote, a missing argument *)

Lemma outcome_make_request_down (method endpoint : string) (data : option json)
  (e : exn) (w : remote) :
  (forall rq, w rq = Raise e) ->
  In method ["GET"; "POST"; "DELETE"] ->
  outcome (make_request method endpoint data w) = Raise e.
Proof.
  intros Hw [<- | [<- | [<- | []]]]; unfold make_request; simpl;
    unfold outcome, http_send; simpl; apply Hw.
Qed.

Lemma analytics_params_spec (arguments : dict) :
  analytics_params arguments =
    Ok (JObj ([("fields", JStr analytics_fields)]
              ++ optional_param arguments "start_date" "start"
              ++ optional_param arguments "end_date" "end")).
Proof.
  unfold analytics_params, optional_param, arg_get, arg, py_getitem.
  destruct (dict_get "start_date" arguments) as [s|];
    [destruct (py_truthy s)|];
  (destruct (dict_get "end_date" arguments) as [e|];
    [destruct (py_truthy e)|]); reflexivity.
Qed.

(** X3: when the remote cannot be reached, the five tools that need no
    argument let the transport fault escape, the other tools but
    [create_template] raise as well, and [create_template] alone answers
    with the text of the exception it caught. *)
Theorem transport_fault_escapes_except_create (name : string) (arguments : dict)
  (e : exn) (w : remote) :
  (forall rq, w rq = Raise e) ->
  (In name ["list_templates"; "get_template"; "get_account_info";
            "get_phone_numbers"; "get_analytics"] ->
   outcome (call_tool name arguments w) = Raise e) /\
  (In name ["delete_template"; "send_template_message"; "send_text_message"] ->
   exists e', outcome (call_tool name arguments w) = Raise e') /\
  (name = "create_template" ->
   exists e', outcome (call_tool name arguments w) = Ok (exception_text e')).
Proof.
  intro Hw.
  assert (Hdown : forall method endpoint data,
            In method ["GET"; "POST"; "DELETE"] ->
            outcome (make_request method endpoint data w) = Raise e).
  { intros. now apply outcome_make_request_down. }
  split; [|split].
  - intros [<- | [<- | [<- | [<- | [<- | []]]]]].
    + change (call_tool "list_templates" arguments)
        with (call_list_templates arguments).
      unfold call_list_templates. rewrite outcome_bind, Hdown; simpl; tauto.
    + change (call_tool "get_template" arguments)
        with (call_get_template arguments).
      unfold call_get_template. rewrite outcome_bind.
      destruct (py_truthy (arg_get arguments "template_id")) eqn:E.
      * destruct (truthy_arg _ _ E) as [v ->]. cbv iota.
        rewrite bind_lift_Ok, Hdown; simpl; tauto.
      * cbv iota. rewrite outcome_bind, Hdown; simpl; tauto.
    + change (call_tool "get_account_info" arguments)
        with (call_get_account_info arguments).
      unfold call_get_account_info. rewrite outcome_bind, Hdown; simpl; tauto.
    + change (call_tool "get_phone_numbers" arguments)
        with (call_get_phone_numbers arguments).
      unfold call_get_phone_numbers. rewrite outcome_bind, Hdown; simpl; tauto.
    + change (call_tool "get_analytics" arguments)
        with (call_get_analytics arguments).
      unfold call_get_analytics. rewrite analytics_params_spec, bind_lift_Ok.
      rewrite outcome_bind, Hdown; simpl; tauto.
  - intros [<- | [<- | [<- | []]]].
    + change (call_tool "delete_template" arguments)
        with (call_delete_template arguments).
      unfold call_delete_template.
      destruct (arg arguments "template_name") as [v|e0]; [|rewrite bind_lift_Raise; simpl; eauto].
      rewrite bind_lift_Ok, outcome_bind, Hdown; simpl; eauto.
    + change (call_tool "send_template_message" arguments)
        with (call_send_template_message arguments).
      unfold call_send_template_message.
      destruct (send_template_payload arguments) as [v|e0]; [|rewrite bind_lift_Raise; simpl; eauto].
      rewrite bind_lift_Ok, outcome_bind, Hdown; simpl; eauto.
    + change (call_tool "send_text_message" arguments)
        with (call_send_text_message arguments).
      unfold call_send_text_message.
      destruct (send_text_payload arguments) as [v|e0]; [|rewrite bind_lift_Raise; simpl; eauto].
      rewrite bind_lift_Ok, outcome_bind, Hdown; simpl; eauto.
  - intros ->.
    change (call_tool "create_template" arguments)
      with (call_create_template arguments).
    unfold call_create_template. unfold exception_text.
    rewrite outcome_try_ret.
    destruct (create_template_payload arguments) as [v|e0];
      [|rewrite bind_lift_Raise; simpl; eauto].
    rewrite bind_lift_Ok, outcome_bind, Hdown; simpl; eauto.
Qed.

Lemma rbind_raises (A B : Type) (m : res A) (k : A -> res B) :
  (forall a, exists e, k a = Raise e) -> exists e, rbind m k = Raise e.
Proof.
  intro Hk. destruct m as [a|e]; simpl; [apply Hk|eauto].
Qed.

Lemma arg_None (d : dict) (k : string) :
  dict_get k d = None -> arg d k = Raise (KeyError k).
Proof. unfold arg; simpl. now intros ->. Qed.

Lemma body_component_needs (arguments : dict) (key : string) :
  In key ["body_text"; "body_examples"] ->
  dict_get key arguments = None ->
  exists e, body_component arguments = Raise e.
Proof.
  intros [<- | [<- | []]] H; unfold body_component.
  - rewrite (arg_None _ _ H). simpl. eauto.
  - apply rbind_raises. intro. rewrite (arg_None _ _ H). simpl. eauto.
Qed.

Lemma create_template_payload_needs (arguments : dict) (key : string) :
  In key ["name"; "category"; "body_text"; "body_examples"] ->
  dict_get key arguments = None ->
  exists e, create_template_payload arguments = Raise e.
Proof.
  intros [<- | [<- | Hbody]] H; unfold create_template_payload.
  - apply rbind_raises. intro. rewrite (arg_None _ _ H). simpl. eauto.
  - apply rbind_raises. intro. apply rbind_raises. intro.
    rewrite (arg_None _ _ H). simpl. eauto.
  - destruct (body_component_needs _ _ Hbody H) as [e He].
    unfold create_template_components. rewrite He.
    match goal with
    | |- exists e', rbind (rbind ?m _) _ = _ => destruct m; simpl; eauto
    end.
Qed.

Lemma send_text_payload_needs (arguments : dict) (key : string) :
  In key ["to"; "message"] ->
  dict_get key arguments = None ->
  exists e, send_text_payload arguments = Raise e.
Proof.
  intros [<- | [<- | []]] H; unfold send_text_payload.
  - rewrite (arg_None _ _ H). simpl. eauto.
  - apply rbind_raises. intro. rewrite (arg_None _ _ H). simpl. eauto.
Qed.

Lemma send_template_payload_needs (arguments : dict) (key : string) :
  In key ["to"; "template_name"] ->
  dict_get key arguments = None ->
  exists e, send_template_payload arguments = Raise e.
Proof.
  intros [<- | [<- | []]] H; unfold send_template_payload;
    apply rbind_raises; intro.
  - rewrite (arg_None _ _ H). simpl. eauto.
  - apply rbind_raises. intro. rewrite (arg_None _ _ H). simpl. eauto.
Qed.

(** X4: a call that lacks a key its schema requires and its handler
    subscripts (every required key but [body_parameters]) never reaches the
    remote: no request is sent; the call raises, except [create_template],
    which returns the text of the caught exception. *)
Theorem missing_required_argument_sends_nothing
  (tool : Tool) (key : string) (arguments : dict) (w : remote) :
  In tool list_tools ->
  In key (tool_required tool) ->
  subscripted (tool_name tool) key = true ->
  dict_get key arguments = None ->
  requests (call_tool (tool_name tool) arguments w) = [] /\
  exists e,
    outcome (call_tool (tool_name tool) arguments w) =
      if String.eqb (tool_name tool) "create_template"
      then Ok (exception_text e)
      else Raise e.
Proof.
  intros Htool Hkey Hsub Hnone. simpl in Htool.
  destruct Htool as [<-|[<-|[<-|[<-|[<-|[<-|[<-|[<-|[<-|[]]]]]]]]]];
    cbn [tool_name tool_required] in *; try contradiction.
  - destruct (create_template_payload_needs _ _ Hkey Hnone) as [e He].
    change (call_tool "create_template" arguments)
      with (call_create_template arguments).
    unfold call_create_template.
    rewrite requests_try_ret, outcome_try_ret, He, bind_lift_Raise.
    split; [reflexivity|]. exists e. reflexivity.
  - destruct Hkey as [<-|[]].
    change (call_tool "delete_template" arguments)
      with (call_delete_template arguments).
    unfold call_delete_template.
    rewrite (arg_None _ _ Hnone), bind_lift_Raise.
    split; [reflexivity|]. eexists. reflexivity.
  - assert (Hk : In key ["to"; "template_name"]).
    { destruct Hkey as [<-|[<-|[<-|[]]]]; simpl; auto. discriminate Hsub. }
    destruct (send_template_payload_needs _ _ Hk Hnone) as [e He].
    change (call_tool "send_template_message" arguments)
      with (call_send_template_message arguments).
    unfold call_send_template_message. rewrite He, bind_lift_Raise.
    split; [reflexivity|]. exists e. reflexivity.
  - destruct (send_text_payload_needs _ _ Hkey Hnone) as [e He].
    change (call_tool "send_text_message" arguments)
      with (call_send_text_message arguments).
    unfold call_send_text_message. rewrite He, bind_lift_Raise.
    split; [reflexivity|]. exists e. reflexivity.
Qed.

(** X5: [body_parameters] is declared required, yet a call without it (and
    without [header_parameters]) is sent all the same, with an empty
    component list. *)
Theorem send_template_message_without_parameters
  (arguments : dict) (to template_name : json) (w : remote) :
  dict_get "body_parameters" arguments = None ->
  dict_get "header_parameters" arguments = None ->
  dict_get "to" arguments = Some to ->
  dict_get "template_name" arguments = Some template_name ->
  In "body_parameters"
     (flat_map tool_required
        (filter (fun t => String.eqb (tool_name t) "send_template_message")
                list_tools)) /\
  requests (call_tool "send_template_message" arguments w) =
    [ mk_request "POST" (BASE_URL +++ "/" +++ PHONE_NUMBER_ID +++ "/messages")
        headers None
        (Some (JObj [ ("messaging_product", JStr "whatsapp");
                      ("recipient_type", JStr "individual");
                      ("to", to);
                      ("type", JStr "template");
                      ("template",
                       JObj [ ("name", template_name);
                              ("language",
                               JObj [("code",
                                      arg_get_default arguments "language"
                                        (JStr "es_CL"))]);
                              ("components", JArr []) ]) ])) ].
Proof.
  intros Hb Hh Hto Hname. split; [simpl; tauto|].
  assert (Hc : send_template_components arguments = Ok []).
  { apply (send_template_components_spec arguments [] []); right; auto. }
  change (call_tool "send_template_message" arguments)
    with (call_send_template_message arguments).
  unfold call_send_template_message, send_template_payload.
  rewrite Hc. cbn [rbind].
  rewrite (arg_Some _ _ _ Hto), (arg_Some _ _ _ Hname). cbn [rbind].
  rewrite bind_lift_Ok.
  unfold make_request; simpl String.eqb; cbv iota.
  apply requests_send.
Qed.

(** ** Listing: filter and table *)

Lemma append_assoc (a b c : string) : (a +++ b) +++ c = a +++ (b +++ c).
Proof. induction a as [|x a IH]; simpl; [reflexivity|now rewrite IH]. Qed.

Lemma append_empty_r (a : string) : a +++ "" = a.
Proof. induction a as [|x a IH]; simpl; [reflexivity|now rewrite IH]. Qed.

Lemma fold_rows_objects (row : json -> res string) (line : dict -> string)
  (ts : list dict) :
  Forall (fun t => row (JObj t) = Ok (line t)) ts ->
  forall output,
    fold_rows row (map JObj ts) output = Ok (output +++ join (map line ts)).
Proof.
  induction 1 as [|t ts Ht _ IH]; intro output; simpl.
  - now rewrite append_empty_r.
  - rewrite Ht. simpl. rewrite IH, append_assoc. reflexivity.
Qed.

Lemma py_get_object (t : dict) (f : string) :
  py_get (JObj t) f = Ok (arg_get t f).
Proof.
  unfold py_get, py_get_default, arg_get. destruct (dict_get f t); reflexivity.
Qed.

Lemma py_get_default_object (t : dict) (f : string) (dflt : json) :
  py_get_default (JObj t) f dflt = Ok (arg_get_default t f dflt).
Proof.
  unfold py_get_default, arg_get_default. destruct (dict_get f t); reflexivity.
Qed.

Lemma truthy_arg_get (d : dict) (k : string) :
  py_truthy (arg_get d k) = true -> arg d k = Ok (arg_get d k).
Proof.
  unfold arg_get, arg, py_getitem.
  destruct (dict_get k d); [reflexivity|discriminate].
Qed.

Lemma filter_res_keeps (arguments : dict) (f : string) (ts : list dict) :
  py_truthy (arg_get arguments f) = true ->
  filter_res (fun t => (v <- py_get t f ;;
                        a <- arg arguments f ;;
                        Ok (py_eq v a))%res) (map JObj ts)
  = Ok (map JObj (filter (keeps arguments f) ts)).
Proof.
  intro Ht. induction ts as [|t ts IH]; [reflexivity|].
  cbn [map filter_res filter]. rewrite IH, py_get_object, (truthy_arg_get _ _ Ht).
  cbn [rbind].
  assert (K : keeps arguments f t = py_eq (arg_get t f) (arg_get arguments f)).
  { unfold keeps. now rewrite Ht. }
  rewrite K.
  destruct (py_eq (arg_get t f) (arg_get arguments f)); reflexivity.
Qed.

Lemma filter_all (A : Type) (p : A -> bool) (l : list A) :
  (forall x, p x = true) -> filter p l = l.
Proof.
  intro Hp. induction l as [|x l IH]; simpl; [reflexivity|].
  now rewrite Hp, IH.
Qed.

Lemma filter_by_keeps (arguments : dict) (f : string) (ts : list dict) :
  filter_by arguments f (JArr (map JObj ts))
  = Ok (JArr (map JObj (filter (keeps arguments f) ts))).
Proof.
  unfold filter_by. destruct (py_truthy (arg_get arguments f)) eqn:E.
  - cbn [py_iter rbind]. now rewrite (filter_res_keeps _ _ _ E).
  - rewrite filter_all; [reflexivity|]. intro t. unfold keeps. now rewrite E.
Qed.

Lemma filter_templates_selects_aux (arguments : dict) (ts : list dict) :
  filter_templates arguments (JArr (map JObj ts))
  = Ok (JArr (map JObj (selected arguments ts))).
Proof.
  unfold filter_templates, selected. rewrite filter_by_keeps. cbn [rbind].
  rewrite filter_by_keeps, filter_twice. reflexivity.
Qed.

(** X6: on a [data] array of objects the filter of [list_templates] never
    raises, whatever the arguments: it keeps, in order, the entries whose
    [status] equals a truthy [status] argument and whose [category] equals
    a truthy [category] argument; a falsy or absent argument filters
    nothing. *)
Theorem filter_templates_selects (arguments : dict) (ts : list dict) :
  filter_templates arguments (JArr (map JObj ts))
  = Ok (JArr (map JObj
          (filter (fun t => keeps arguments "status" t
                            && keeps arguments "category" t) ts))).
Proof.
  exact (filter_templates_selects_aux arguments ts).
Qed.

Lemma keeps_string (arguments : dict) (f S : string) (t : dict) :
  dict_get f arguments = Some (JStr S) ->
  keeps arguments f t = if String.eqb S "" then true else field_is f S t.
Proof.
  intro H. unfold keeps. rewrite (arg_get_Some _ _ _ H). simpl.
  destruct (String.eqb S ""); simpl; [reflexivity|].
  unfold arg_get. apply py_eq_field_is.
Qed.

(** X7: a single filter selects by its field alone, and a filter given as
    the empty string is ignored: with [status] a non-empty string [S] and
    [category] absent or empty, exactly the entries with status [S] are
    kept; the same with the roles exchanged. *)
Theorem filter_templates_single (arguments : dict) (f g S : string) (ts : list dict) :
  (f = "status" /\ g = "category") \/ (f = "category" /\ g = "status") ->
  S <> "" ->
  dict_get f arguments = Some (JStr S) ->
  dict_get g arguments = None \/ dict_get g arguments = Some (JStr "") ->
  filter_templates arguments (JArr (map JObj ts))
  = Ok (JArr (map JObj (filter (field_is f S) ts))).
Proof.
  intros Hfg HS Hf Hg.
  assert (Kf : forall t, keeps arguments f t = field_is f S t).
  { intro t. rewrite (keeps_string _ _ _ _ Hf).
    apply String.eqb_neq in HS. now rewrite HS. }
  assert (Kg : forall t, keeps arguments g t = true).
  { intro t. destruct Hg as [Hg|Hg].
    - unfold keeps. now rewrite (arg_get_None _ _ Hg).
    - now rewrite (keeps_string _ _ _ _ Hg). }
  rewrite filter_templates_selects_aux.
  unfold selected. f_equal. f_equal. f_equal. apply filter_ext. intro t.
  destruct Hfg as [[-> ->] | [-> ->]]; rewrite Kf, Kg.
  - apply andb_true_r.
  - reflexivity.
Qed.

Lemma template_row_object (t : dict) :
  dict_get "name" t <> None ->
  template_row (JObj t) = Ok (template_line t).
Proof.
  intro Hname. unfold template_row, template_line, or_NA, arg_get, py_getitem.
  rewrite !py_get_default_object.
  destruct (dict_get "name" t) as [v|]; [reflexivity|contradiction].
Qed.

Lemma Forall_filter (A : Type) (P : A -> Prop) (p : A -> bool) (l : list A) :
  Forall P l -> Forall P (filter p l).
Proof.
  induction 1 as [|x l Hx _ IH]; simpl; [constructor|].
  destruct (p x); [constructor|]; assumption.
Qed.

Lemma py_in_present (k : string) (o : dict) (v : json) :
  dict_get k o = Some v -> py_in k (JObj o) = Ok true.
Proof. intro H. unfold py_in, dict_mem. now rewrite H. Qed.

Lemma py_getitem_present (k : string) (o : dict) (v : json) :
  dict_get k o = Some v -> py_getitem (JObj o) k = Ok v.
Proof. intro H. unfold py_getitem. now rewrite H. Qed.

(** X8: when [data] is an array of objects that all have a [name],
    [list_templates] never raises, whatever its arguments: it returns one
    text block, the table header, one row per selected entry in order (a
    missing category, status or language shown as N/A), and a total that
    counts the rows shown. *)
Theorem list_templates_renders_table (arguments o : dict) (ts : list dict) :
  dict_get "data" o = Some (JArr (map JObj ts)) ->
  Forall (fun t => dict_get "name" t <> None) ts ->
  format_list_templates arguments (JObj o) =
    Ok [text_content
          ("## WhatsApp Templates" +++ nl +++ nl
           +++ "| Name | Category | Status | Language |" +++ nl
           +++ "|------|----------|--------|----------|" +++ nl
           +++ join (map template_line (selected arguments ts))
           +++ nl +++ "**Total: "
           +++ nat_to_string (List.length (selected arguments ts))
           +++ " templates**")].
Proof.
  intros Hdata Hnames. unfold format_list_templates.
  rewrite (py_in_present _ _ _ Hdata), (py_getitem_present _ _ _ Hdata).
  cbn [rbind]. rewrite filter_templates_selects_aux. cbn [rbind].
  unfold render_templates. cbn [py_iter py_len rbind].
  rewrite (fold_rows_objects template_row template_line).
  - cbn [rbind]. rewrite length_map, !append_assoc. reflexivity.
  - unfold selected. apply Forall_filter.
    eapply Forall_impl; [|exact Hnames]. intros t Ht.
    now apply template_row_object.
Qed.

Lemma phone_rows_object (phone : dict) :
  phone_rows (JObj phone) = Ok (phone_lines phone).
Proof.
  unfold phone_rows, phone_lines, or_NA.
  rewrite !py_get_object, !py_get_default_object. reflexivity.
Qed.

(** X9: when [data] is an array of objects, [get_phone_numbers] never
    raises: it returns the heading followed by one item per phone number,
    in order, with a missing quality rating or messaging limit shown as N/A
    and any other missing field as None. *)
Theorem phone_numbers_render (o : dict) (phones : list dict) :
  dict_get "data" o = Some (JArr (map JObj phones)) ->
  format_phone_numbers (JObj o) =
    Ok [text_content ("## Phone Numbers" +++ nl +++ nl
                      +++ join (map phone_lines phones))].
Proof.
  intro Hdata. unfold format_phone_numbers.
  rewrite (py_in_present _ _ _ Hdata), (py_getitem_present _ _ _ Hdata).
  cbn [rbind py_iter].
  rewrite (fold_rows_objects phone_rows phone_lines).
  - cbn [rbind]. rewrite !append_assoc. reflexivity.
  - apply Forall_forall. intros. apply phone_rows_object.
Qed.

(** ** Looking a template up *)

(** X10: [get_template] without a usable [template_id] asks the template
    list for the given name in one GET that carries no [limit]; from a
    response object whose [data] is a non-empty array it returns the first
    entry alone, and from one whose [data] is empty or absent it returns the
    whole response, pretty-printed. *)
Theorem get_template_by_name (arguments o : dict) (l : list json) (w : remote) :
  py_truthy (arg_get arguments "template_id") = false ->
  w (get_template_by_name_request arguments) = Ok (JObj o) ->
  data_array o l ->
  call_tool "get_template" arguments w =
    ([get_template_by_name_request arguments],
     Ok [text_content (json_dumps (Some 2) false
                         match l with
                         | first :: _ => first
                         | [] => JObj o
                         end)]) /\
  forall v, ~ has_query (get_template_by_name_request arguments) "limit" v.
Proof.
  intros Hid Hw Hdata. split.
  - change (call_tool "get_template" arguments)
      with (call_get_template arguments).
    unfold call_get_template. rewrite Hid.
    unfold make_request; simpl String.eqb; cbv iota.
    fold (get_template_by_name_request arguments).
    unfold bind, http_send, lift, ret. rewrite Hw.
    destruct Hdata as [Hd | [Hd ->]].
    + rewrite (py_in_present _ _ _ Hd), (py_getitem_present _ _ _ Hd).
      destruct l as [|first rest]; reflexivity.
    + rewrite (py_in_absent _ _ Hd). reflexivity.
  - intros v [q [Hq Hlimit]]. injection Hq as <-. discriminate Hlimit.
Qed.

(** X11: [get_template] with a truthy [template_id] sends one GET to the
    path made of that id and returns the response as it came,
    pretty-printed, without looking into it; a transport fault escapes. *)
Theorem get_template_by_id (arguments : dict) (w : remote) :
  py_truthy (arg_get arguments "template_id") = true ->
  call_tool "get_template" arguments w =
    ([get_template_by_id_request (arg_get arguments "template_id")],
     match w (get_template_by_id_request (arg_get arguments "template_id")) with
     | Ok result => Ok [text_content (json_dumps (Some 2) false result)]
     | Raise e => Raise e
     end).
Proof.
  intro Hid.
  change (call_tool "get_template" arguments)
    with (call_get_template arguments).
  unfold call_get_template. rewrite Hid, (truthy_arg_get _ _ Hid).
  unfold make_request; simpl String.eqb; cbv iota.
  unfold bind, http_send, lift, ret. cbv beta iota.
  fold (get_template_by_id_request (arg_get arguments "template_id")).
  destruct (w (get_template_by_id_request (arg_get arguments "template_id")));
    reflexivity.
Qed.

(** ** Creating a template: the request and the report *)


(** X13: when the remote answers a valid [create_template] call with an
    object that has an [id], the result is the success text with that id,
    the response's status (PENDING when it has none) and the response's
    category (the requested one when it has none). *)
Theorem create_template_reports_success
  (arguments o : dict) (r : create_args) (name category id : json) (w : remote) :
  has_create_args arguments r ->
  dict_get "name" arguments = Some name ->
  dict_get "category" arguments = Some category ->
  (forall rq, w rq = Ok (JObj o)) ->
  dict_get "id" o = Some id ->
  outcome (call_tool "create_template" arguments w) =
    Ok [text_content
          ("Template created successfully!" +++ nl +++ nl
           +++ "- **ID**: " +++ str id +++ nl
           +++ "- **Status**: "
           +++ str (match dict_get "status" o with
                    | Some status => status
                    | None => JStr "PENDING"
                    end) +++ nl
           +++ "- **Category**: "
           +++ str (match dict_get "category" o with
                    | Some c => c
                    | None => category
                    end))].
Proof.
  intros Hargs Hname Hcat Hw Hid.
  change (call_tool "create_template" arguments)
    with (call_create_template arguments).
  unfold call_create_template. rewrite outcome_try_ret.
  unfold create_template_payload.
  rewrite (create_template_components_spec _ _ Hargs). cbn [rbind].
  rewrite (arg_Some _ _ _ Hname), (arg_Some _ _ _ Hcat). cbn [rbind].
  rewrite bind_lift_Ok.
  unfold make_request; simpl String.eqb; cbv iota.
  rewrite outcome_send, Hw. cbn [rbind].
  unfold format_create_template.
  rewrite (py_in_present _ _ _ Hid), (py_getitem_present _ _ _ Hid).
  cbn [rbind]. rewrite (arg_Some _ _ _ Hcat), py_get_default_object.
  cbn [rbind]. rewrite py_get_default_object. reflexivity.
Qed.

Lemma build_buttons_needs_type (js : list json) :
  Exists (fun j => exists e, py_getitem j "type" = Raise e) js ->
  forall acc, exists e, build_buttons js acc = Raise e.
Proof.
  induction 1 as [j rest [e He] | j rest _ IH]; intro acc;
    cbn [build_buttons].
  - rewrite He. simpl. eauto.
  - destruct (py_getitem j "type") as [ty|e]; cbn [rbind]; [|eauto].
    destruct (py_eq ty (JStr "QUICK_REPLY")).
    + destruct (py_getitem j "text"); cbn [rbind]; [apply IH|eauto].
    + destruct (py_eq ty (JStr "URL")); [|apply IH].
      destruct (py_getitem j "text"); cbn [rbind]; [|eauto].
      destruct (py_getitem j "url"); cbn [rbind]; [apply IH|eauto].
Qed.

(** X14: a button without a [type] (or one that is not an object) is not
    skipped: it aborts the whole [create_template] call before anything is
    sent, and the result is the text of the caught exception. *)
Theorem button_without_type_aborts_creation
  (arguments : dict) (js : list json) (w : remote) :
  dict_get "buttons" arguments = Some (JArr js) ->
  Exists (fun j => exists e, py_getitem j "type" = Raise e) js ->
  requests (call_tool "create_template" arguments w) = [] /\
  exists e, outcome (call_tool "create_template" arguments w)
            = Ok (exception_text e).
Proof.
  intros Hjs Hbad.
  assert (Hraise : exists e, create_template_payload arguments = Raise e).
  { unfold create_template_payload, create_template_components.
    assert (Ht : py_truthy (arg_get arguments "buttons") = true).
    { rewrite (arg_get_Some _ _ _ Hjs). destruct Hbad; reflexivity. }
    rewrite Ht, (arg_Some _ _ _ Hjs).
    destruct (build_buttons_needs_type js Hbad []) as [e He].
    cbn [rbind py_iter]. rewrite He.
    repeat match goal with
           | |- exists e', rbind (rbind ?m _) _ = _ =>
               destruct m; cbn [rbind]; eauto
           end. }
  destruct Hraise as [e He].
  change (call_tool "create_template" arguments)
    with (call_create_template arguments).
  unfold call_create_template.
  rewrite requests_try_ret, outcome_try_ret, He, bind_lift_Raise.
  split; [reflexivity|]. exists e. reflexivity.
Qed.

(** ** Analytics, deletion and sending: the whole call *)

(** X15: [get_analytics] never fails to build its query: it sends one GET
    to [{WABA_ID}] whose [fields] value is always the same literal text
    (the dates are not substituted into it), followed by [start] when
    [start_date] is truthy and by [end] when [end_date] is truthy; the
    response, whatever it is, is shown in a JSON block, and a transport
    fault escapes. *)
Theorem get_analytics_call (arguments : dict) (w : remote) :
  let rq :=
    mk_request "GET" (BASE_URL +++ "/" +++ WABA_ID) headers
      (Some (JObj ([("fields", JStr analytics_fields)]
                   ++ optional_param arguments "start_date" "start"
                   ++ optional_param arguments "end_date" "end")))
      None in
  call_tool "get_analytics" arguments w =
    ([rq],
     match w rq with
     | Ok result =>
         Ok [text_content ("## Analytics" +++ nl +++ nl +++ "```json" +++ nl
                           +++ json_dumps (Some 2) true result +++ nl +++ "```")]
     | Raise e => Raise e
     end).
Proof.
  intro rq.
  change (call_tool "get_analytics" arguments)
    with (call_get_analytics arguments).
  unfold call_get_analytics.
  rewrite analytics_params_spec, bind_lift_Ok.
  unfold make_request; simpl String.eqb; cbv iota.
  fold rq. unfold bind, http_send, ret.
  destruct (w rq); reflexivity.
Qed.

(** X16: [delete_template] reports success exactly when the response
    object holds a truthy [success] value, naming the template; otherwise
    (falsy or absent) it returns the error text with the serialized
    response. *)
Theorem delete_template_reports
  (arguments o : dict) (template_name : json) (w : remote) :
  dict_get "template_name" arguments = Some template_name ->
  (forall rq, w rq = Ok (JObj o)) ->
  outcome (call_tool "delete_template" arguments w) =
    Ok [text_content
          (if py_truthy (match dict_get "success" o with
                         | Some success => success
                         | None => JNull
                         end)
           then "Template '" +++ str template_name +++ "' deleted successfully"
           else "Error: " +++ json_dumps None true (JObj o))].
Proof.
  intros Hname Hw.
  change (call_tool "delete_template" arguments)
    with (call_delete_template arguments).
  unfold call_delete_template.
  rewrite (arg_Some _ _ _ Hname), bind_lift_Ok.
  unfold make_request; simpl String.eqb; cbv iota.
  rewrite outcome_send, Hw. cbn [rbind].
  unfold format_delete_template. rewrite py_get_object. cbn [rbind].
  unfold arg_get.
  destruct (py_truthy match dict_get "success" o with
                      | Some v => v
                      | None => JNull
                      end); reflexivity.
Qed.

Lemma format_send_success
  (headline : string) (arguments o first : dict) (rest : list json) (id to : json) :
  dict_get "messages" o = Some (JArr (JObj first :: rest)) ->
  dict_get "id" first = Some id ->
  dict_get "to" arguments = Some to ->
  format_send headline arguments (JObj o) =
    Ok [text_content (headline +++ nl +++ nl
                      +++ "- **Message ID**: " +++ str id +++ nl
                      +++ "- **To**: " +++ str to)].
Proof.
  intros Hm Hid Hto. unfold format_send.
  rewrite (py_in_present _ _ _ Hm), (py_getitem_present _ _ _ Hm).
  cbn [rbind py_getitem0]. rewrite (py_getitem_present _ _ _ Hid).
  cbn [rbind]. rewrite (arg_Some _ _ _ Hto). reflexivity.
Qed.

(** X17: when the remote answers with an object whose [messages] is a
    non-empty array and whose first message is an object with an [id],
    [send_text_message] and [send_template_message] return their success
    text with that id and the recipient; later messages are not looked
    at. *)
Theorem send_reports_first_message_id
  (arguments o first : dict) (rest : list json) (id to : json) (w : remote) :
  (forall rq, w rq = Ok (JObj o)) ->
  dict_get "messages" o = Some (JArr (JObj first :: rest)) ->
  dict_get "id" first = Some id ->
  dict_get "to" arguments = Some to ->
  (forall message,
     dict_get "message" arguments = Some message ->
     outcome (call_tool "send_text_message" arguments w) =
       Ok [text_content ("Text message sent!" +++ nl +++ nl
                         +++ "- **Message ID**: " +++ str id +++ nl
                         +++ "- **To**: " +++ str to)]) /\
  (forall template_name hp bp,
     dict_get "template_name" arguments = Some template_name ->
     has_parameters arguments "header_parameters" hp ->
     has_parameters arguments "body_parameters" bp ->
     outcome (call_tool "send_template_message" arguments w) =
       Ok [text_content ("Message sent successfully!" +++ nl +++ nl
                         +++ "- **Message ID**: " +++ str id +++ nl
                         +++ "- **To**: " +++ str to)]).
Proof.
  intros Hw Hm Hid Hto. split.
  - intros message Hmsg.
    change (call_tool "send_text_message" arguments)
      with (call_send_text_message arguments).
    unfold call_send_text_message.
    rewrite (send_text_payload_spec _ _ _ Hto Hmsg), bind_lift_Ok.
    unfold make_request; simpl String.eqb; cbv iota.
    rewrite outcome_send, Hw. cbn [rbind].
    exact (format_send_success _ _ _ _ _ _ _ Hm Hid Hto).
  - intros template_name hp bp Hname Hh Hb.
    change (call_tool "send_template_message" arguments)
      with (call_send_template_message arguments).
    unfold call_send_template_message, send_template_payload.
    rewrite (send_template_components_spec _ _ _ Hh Hb). cbn [rbind].
    rewrite (arg_Some _ _ _ Hto), (arg_Some _ _ _ Hname). cbn [rbind].
    rewrite bind_lift_Ok.
    unfold make_request; simpl String.eqb; cbv iota.
    rewrite outcome_send, Hw. cbn [rbind].
    exact (format_send_success _ _ _ _ _ _ _ Hm Hid Hto).
Qed.

(** ** The order of the argument keys *)

Lemma call_tool_same_lookups (name : string) (d d' : dict) (w : remote) :
  same_lookups d d' -> call_tool name d w = call_tool name d' w.
Proof.
  intro H.
  unfold call_tool, call_list_templates, call_get_template,
    call_create_template, call_delete_template, call_get_account_info,
    call_get_phone_numbers, call_send_template_message,
    call_send_text_message, call_get_analytics,
    format_list_templates, filter_templates, filter_by,
    create_template_payload, create_template_components, body_component,
    format_create_template, send_template_payload, send_template_components,
    parameter_component, format_send, send_text_payload, analytics_params,
    arg, arg_get, arg_get_default.
  cbn [py_getitem]. rewrite !H. reflexivity.
Qed.

(** X18: a tool call depends on its arguments only through the value found
    under each key: two argument dicts that hold the same entries in a
    different order send the same requests and give the same outcome, for
    every tool. *)
Theorem call_tool_ignores_key_order (name : string) (d d' : dict) (w : remote) :
  wf_dict d ->
  Permutation d d' ->
  call_tool name d' w = call_tool name d w.
Proof.
  intros ND P. apply call_tool_same_lookups.
  intro k. exact (dict_get_perm k d d' ND P).
Qed.

(** ** Which tool uses which method *)

Lemma all_requests_bind (A B : Type) (P : http_request -> Prop)
  (m : IO A) (k : A -> IO B) (w : remote) :
  all_requests P (m w) ->
  (forall a, all_requests P (k a w)) ->
  all_requests P (bind m k w).
Proof.
  intros Hm Hk rq. rewrite requests_bind. intro Hin.
  apply in_app_or in Hin. destruct Hin as [Hin|Hin]; [now apply Hm|].
  destruct (outcome (m w)) as [a|e]; [now apply (Hk a)|contradiction].
Qed.

Lemma all_requests_make_request (method endpoint : string) (data : option json)
  (w : remote) :
  all_requests (fun rq => rq_method rq = method) (make_request method endpoint data w).
Proof.
  unfold make_request.
  destruct (String.eqb method "GET") eqn:E1.
  { apply String.eqb_eq in E1. subst. intros rq [<-|[]]. reflexivity. }
  destruct (String.eqb method "POST") eqn:E2.
  { apply String.eqb_eq in E2. subst. intros rq [<-|[]]. reflexivity. }
  destruct (String.eqb method "DELETE") eqn:E3.
  { apply String.eqb_eq in E3. subst. intros rq [<-|[]]. reflexivity. }
  intros rq [].
Qed.

Lemma all_requests_silent (A : Type) (P : http_request -> Prop)
  (r : list http_request * res A) :
  requests r = [] -> all_requests P r.
Proof. intros H rq. rewrite H. intros []. Qed.

Ltac by_method :=
  lazymatch goal with
  | |- all_requests _ (bind _ _ _) =>
      apply all_requests_bind; [by_method|intro; by_method]
  | |- all_requests _ (make_request _ _ _ _) => apply all_requests_make_request
  | |- all_requests _ ((if ?b then _ else _) _) => destruct b; by_method
  | |- all_requests _ _ => apply all_requests_silent; reflexivity
  end.

(** X19: the method of a request is fixed by the tool: [create_template]
    and the two send tools only POST, [delete_template] only DELETEs, and
    every other tool only GETs, so the reading tools never send a request
    that changes the account. *)
Theorem call_tool_method (name : string) (arguments : dict) (w : remote)
  (rq : http_request) :
  In rq (requests (call_tool name arguments w)) ->
  rq_method rq = method_of name.
Proof.
  revert rq. change (all_requests (fun rq => rq_method rq = method_of name)
                       (call_tool name arguments w)).
  unfold call_tool.
  destruct (String.eqb name "list_templates") eqn:E1.
  { apply String.eqb_eq in E1. subst. unfold call_list_templates. by_method. }
  destruct (String.eqb name "get_template") eqn:E2.
  { apply String.eqb_eq in E2. subst. unfold call_get_template. by_method. }
  destruct (String.eqb name "create_template") eqn:E3.
  { apply String.eqb_eq in E3. subst. unfold call_create_template.
    intro rq. unfold all_requests. rewrite requests_try_ret. revert rq.
    change (all_requests (fun rq => rq_method rq = "POST")
      (bind (lift (create_template_payload arguments))
         (fun payload =>
            bind (make_request "POST" (WABA_ID +++ "/message_templates") (Some payload))
              (fun result => lift (format_create_template arguments result))) w)).
    by_method. }
  destruct (String.eqb name "delete_template") eqn:E4.
  { apply String.eqb_eq in E4. subst. unfold call_delete_template. by_method. }
  destruct (String.eqb name "get_account_info") eqn:E5.
  { apply String.eqb_eq in E5. subst. unfold call_get_account_info. by_method. }
  destruct (String.eqb name "get_phone_numbers") eqn:E6.
  { apply String.eqb_eq in E6. subst. unfold call_get_phone_numbers. by_method. }
  destruct (String.eqb name "send_template_message") eqn:E7.
  { apply String.eqb_eq in E7. subst. unfold call_send_template_message. by_method. }
  destruct (String.eqb name "send_text_message") eqn:E8.
  { apply String.eqb_eq in E8. subst. unfold call_send_text_message. by_method. }
  destruct (String.eqb name "get_analytics") eqn:E9.
  { apply String.eqb_eq in E9. subst. unfold call_get_analytics. by_method. }
  apply all_requests_silent. reflexivity.
Qed.

(** ** The template list is asked for with [limit=50] *)

(** C10 (amended): the [list_templates] tool and the [whatsapp://templates]
    resource each send one GET to [{WABA_ID}/message_templates] whose query
    carries [limit=50].  The limit is only asked for: the lookup by name of
    [get_template] queries the same endpoint with no [limit], and an
    unfiltered [list_templates] lists every entry of the [data] it
    receives, however many they are. *)
Theorem template_list_requests_ask_limit_50 (arguments : dict) (w : remote) :
  requests (call_tool "list_templates" arguments w) = [list_templates_request] /\
  requests (read_resource "whatsapp://templates" w) = [templates_resource_request] /\
  has_query list_templates_request "limit" (JInt 50) /\
  has_query templates_resource_request "limit" (JInt 50) /\
  (py_truthy (arg_get arguments "template_id") = false ->
   requests (call_tool "get_template" arguments w)
   = [get_template_by_name_request arguments] /\
   rq_url (get_template_by_name_request arguments) = rq_url list_templates_request /\
   forall v, ~ has_query (get_template_by_name_request arguments) "limit" v) /\
  (forall o ts,
     dict_get "status" arguments = None ->
     dict_get "category" arguments = None ->
     dict_get "data" o = Some (JArr (map JObj ts)) ->
     Forall (fun t => dict_get "name" t <> None) ts ->
     format_list_templates arguments (JObj o) =
       Ok [text_content
             ("## WhatsApp Templates" +++ nl +++ nl
              +++ "| Name | Category | Status | Language |" +++ nl
              +++ "|------|----------|--------|----------|" +++ nl
              +++ join (map template_line ts)
              +++ nl +++ "**Total: " +++ nat_to_string (List.length ts)
              +++ " templates**")]).
Proof.
  split; [|split; [|split; [|split; [|split]]]].
  - change (call_tool "list_templates" arguments)
      with (call_list_templates arguments).
    unfold call_list_templates, make_request; simpl String.eqb; cbv iota.
    apply requests_send.
  - change (read_resource "whatsapp://templates")
      with (bind (make_request "GET" (WABA_ID +++ "/message_templates")
                    (Some templates_resource_query))
                 (fun result => ret (json_dumps (Some 2) false result))).
    unfold make_request; simpl String.eqb; cbv iota.
    apply requests_send_ret.
  - eexists. split; reflexivity.
  - eexists. split; reflexivity.
  - intro Hid. split; [|split].
    + change (call_tool "get_template" arguments)
        with (call_get_template arguments).
      unfold call_get_template. rewrite Hid.
      unfold make_request; simpl String.eqb; cbv iota.
      fold (get_template_by_name_request arguments).
      rewrite requests_bind, requests_send.
      destruct (outcome _); reflexivity.
    + reflexivity.
    + intros v [q [Hq Hlimit]]. injection Hq as <-. discriminate Hlimit.
  - intros o ts Hs Hc Hdata Hnames. unfold format_list_templates.
    rewrite (py_in_present _ _ _ Hdata), (py_getitem_present _ _ _ Hdata).
    cbn [rbind]. unfold filter_templates.
    rewrite (filter_by_absent _ _ _ Hs). cbn [rbind].
    rewrite (filter_by_absent _ _ _ Hc). cbn [rbind].
    unfold render_templates. cbn [py_iter py_len rbind].
    rewrite (fold_rows_objects template_row template_line).
    + cbn [rbind]. rewrite length_map, !append_assoc. reflexivity.
    + eapply Forall_impl; [|exact Hnames]. intros t Ht.
      now apply template_row_object.
Qed.

End Server.

(** ** The theorems at concrete inputs *)

Lemma send_text_message_request_body_witness :
  dict_get "to" hi_args = Some (JStr "56912345678") /\
  dict_get "message" hi_args = Some (JStr "Hi") /\
  requests (call_tool "TOKEN" "WABA" "PHONE" plain_dumps plain_repr plain_exn
              plain_exn "send_text_message" hi_args empty_remote) =
    [ mk_request "POST" "https://graph.facebook.com/v24.0/PHONE/messages"
        (headers "TOKEN") None
        (Some (JObj [ ("messaging_product", JStr "whatsapp");
                      ("recipient_type", JStr "individual");
                      ("to", JStr "56912345678");
                      ("type", JStr "text");
                      ("text", JObj [("body", JStr "Hi")]) ])) ].
Proof.
  split; [reflexivity|]. split; [reflexivity|].
  exact (send_text_message_request_body "TOKEN" "WABA" "PHONE" plain_dumps
           plain_repr plain_exn plain_exn hi_args (JStr "56912345678")
           (JStr "Hi") empty_remote eq_refl eq_refl).
Defined.

Lemma unknown_tool_notice_witness :
  ~ In "foo" catalog /\
  call_tool "TOKEN" "WABA" "PHONE" plain_dumps plain_repr plain_exn plain_exn
    "foo" [] empty_remote
  = ([], Ok [text_content "Unknown tool: foo"]).
Proof.
  assert (H : ~ In "foo" catalog).
  { simpl. intros [H|[H|[H|[H|[H|[H|[H|[H|[H|[]]]]]]]]]]; discriminate H. }
  split; [exact H|].
  exact (unknown_tool_notice "TOKEN" "WABA" "PHONE" plain_dumps plain_repr
           plain_exn plain_exn "foo" [] empty_remote H).
Defined.

Lemma delete_template_request_drops_name_witness :
  dict_get "template_name" delete_args = Some (JStr "old_promo") /\
  requests (call_tool "TOKEN" "WABA" "PHONE" plain_dumps plain_repr plain_exn
              plain_exn "delete_template" delete_args empty_remote) =
    [ mk_request "DELETE"
        "https://graph.facebook.com/v24.0/WABA/message_templates"
        (headers "TOKEN") None None ].
Proof.
  split; [reflexivity|].
  exact (proj1 (delete_template_request_drops_name "TOKEN" "WABA" "PHONE"
                  plain_dumps plain_repr plain_exn plain_exn delete_args
                  (JStr "old_promo") empty_remote eq_refl)).
Defined.

Lemma filter_templates_and_identity_witness :
  "APPROVED" <> "" /\ "UTILITY" <> "" /\
  filter_templates filter_args (JArr (map JObj sample_templates))
  = Ok (JArr [JObj [ ("name", JStr "a"); ("status", JStr "APPROVED");
                     ("category", JStr "UTILITY") ]]) /\
  filter_templates [] (JArr (map JObj sample_templates))
  = Ok (JArr (map JObj sample_templates)).
Proof.
  assert (HS : "APPROVED" <> "") by discriminate.
  assert (HC : "UTILITY" <> "") by discriminate.
  split; [exact HS|]. split; [exact HC|]. split.
  - exact (proj1 (filter_templates_and_identity filter_args)
             "APPROVED" "UTILITY" sample_templates HS HC eq_refl eq_refl).
  - exact (proj2 (filter_templates_and_identity [])
             (JArr (map JObj sample_templates)) eq_refl eq_refl).
Defined.

Lemma send_template_message_components_witness :
  has_parameters send_args "header_parameters" [] /\
  has_parameters send_args "body_parameters" [JStr "Ana"; JStr "Smate"] /\
  send_template_components send_args =
    Ok [JObj [ ("type", JStr "body");
               ("parameters",
                JArr [ JObj [("type", JStr "text"); ("text", JStr "Ana")];
                       JObj [("type", JStr "text"); ("text", JStr "Smate")] ]) ]].
Proof.
  assert (Hh : has_parameters send_args "header_parameters" []).
  { right. split; reflexivity. }
  assert (Hb : has_parameters send_args "body_parameters" [JStr "Ana"; JStr "Smate"]).
  { left. reflexivity. }
  split; [exact Hh|]. split; [exact Hb|].
  exact (proj1 (send_template_message_components "TOKEN" "WABA" "PHONE"
                  plain_dumps plain_repr plain_exn plain_exn send_args
                  [] [JStr "Ana"; JStr "Smate"] (JStr "56912345678")
                  (JStr "welcome_msg") empty_remote Hh Hb eq_refl eq_refl)).
Defined.

Lemma sample_buttons_are_buttons : Forall2 is_button sample_buttons sample_buttons_view.
Proof.
  repeat constructor.
  - eexists. split; [reflexivity|]. split; reflexivity.
  - eexists. split; [reflexivity|]. split; [reflexivity|]. split; discriminate.
  - eexists. split; [reflexivity|]. repeat split; reflexivity.
Defined.

Lemma full_args_wf : wf_dict full_args.
Proof.
  unfold wf_dict, full_args, keys. simpl.
  repeat (constructor;
          [simpl; repeat (let H := fresh in intros [H|H]; [discriminate H|revert H]);
           intros []|]).
  constructor.
Defined.

Lemma full_args_view : has_create_args full_args full_view.
Proof.
  repeat (split; [reflexivity|]).
  exists sample_buttons. split; [reflexivity|exact sample_buttons_are_buttons].
Defined.

Lemma components_order_fixed_witness :
  wf_dict full_args /\
  Permutation full_args (rev full_args) /\
  has_create_args full_args full_view /\
  create_template_components (rev full_args) =
    Ok [ HEADER "Welcome";
         BODY (JStr "Hello {{1}}") (JArr [JStr "Ana"]);
         FOOTER "Bye";
         BUTTONS [ JObj [("type", JStr "QUICK_REPLY"); ("text", JStr "Yes")];
                   JObj [("type", JStr "URL"); ("text", JStr "Site");
                         ("url", JStr "https://example.com")] ] ].
Proof.
  split; [exact full_args_wf|].
  split; [apply Permutation_rev|].
  split; [exact full_args_view|].
  exact (components_order_fixed full_view full_args (rev full_args)
           full_args_wf (Permutation_rev full_args) full_args_view).
Defined.

(** C3 as stated fails: [header_text] given as the empty string yields no
    HEADER component, although the text is given. *)
Lemma header_given_but_empty_counterexample :
  wf_dict empty_header_args /\
  has_create_args empty_header_args empty_header_view /\
  ca_header_text empty_header_view = Some "" /\
  create_template_components empty_header_args =
    Ok [BODY (JStr "Hello {{1}}") (JArr [JStr "Ana"])] /\
  create_template_components empty_header_args <>
    Ok (components_if_given empty_header_view).
Proof.
  split.
  { unfold wf_dict, empty_header_args, keys. simpl.
    repeat (constructor;
            [simpl; repeat (let H := fresh in intros [H|H]; [discriminate H|revert H]);
             intros []|]).
    constructor. }
  split; [repeat split; reflexivity|].
  split; [reflexivity|]. split; [reflexivity|].
  discriminate.
Qed.

Lemma body_examples_wrapped_once_witness :
  dict_get "body_text" welcome_args = Some (JStr "Hello {{1}}") /\
  dict_get "body_examples" welcome_args = Some (JArr [JStr "Ana"]) /\
  body_component welcome_args =
    Ok (JObj [ ("type", JStr "BODY"); ("text", JStr "Hello {{1}}");
               ("example", JObj [("body_text", JArr [JArr [JStr "Ana"]])]) ]) /\
  create_template_components welcome_args =
    Ok [JObj [ ("type", JStr "BODY"); ("text", JStr "Hello {{1}}");
               ("example", JObj [("body_text", JArr [JArr [JStr "Ana"]])]) ]].
Proof.
  split; [reflexivity|]. split; [reflexivity|].
  split; [|reflexivity].
  exact (proj1 (body_examples_wrapped_once welcome_args (JStr "Hello {{1}}")
                  (JArr [JStr "Ana"]) eq_refl eq_refl)).
Defined.

Lemma buttons_mapped_unknown_skipped_witness :
  Forall2 is_button sample_buttons sample_buttons_view /\
  build_buttons sample_buttons [] =
    Ok [ JObj [("type", JStr "QUICK_REPLY"); ("text", JStr "Yes")];
         JObj [("type", JStr "URL"); ("text", JStr "Site");
               ("url", JStr "https://example.com")] ].
Proof.
  split; [exact sample_buttons_are_buttons|].
  exact (proj1 (buttons_mapped_unknown_skipped full_args sample_buttons
                  sample_buttons_view (JStr "Hello {{1}}") (JArr [JStr "Ana"])
                  sample_buttons_are_buttons)).
Defined.

(** The scenario of the specification: the request sent for [welcome_msg]. *)
Lemma welcome_msg_request :
  requests (call_tool "TOKEN" "WABA" "PHONE" plain_dumps plain_repr plain_exn
              plain_exn "create_template" welcome_args empty_remote) =
    [ mk_request "POST" "https://graph.facebook.com/v24.0/WABA/message_templates"
        (headers "TOKEN") None
        (Some (JObj [ ("name", JStr "welcome_msg");
                      ("category", JStr "UTILITY");
                      ("language", JStr "es_CL");
                      ("components",
                       JArr [BODY (JStr "Hello {{1}}") (JArr [JStr "Ana"])]) ])) ].
Proof. reflexivity. Qed.

(** ** The further properties at concrete inputs *)

Lemma read_resource_serves_listed_uris_witness :
  In "whatsapp://account" (map resource_uri list_resources) /\
  ~ In "whatsapp://other" (map resource_uri list_resources) /\
  (exists rq,
     requests (read_resource "TOKEN" "WABA" plain_dumps "whatsapp://account"
                 empty_remote) = [rq] /\
     rq_method rq = "GET" /\ well_formed_request "TOKEN" rq) /\
  read_resource "TOKEN" "WABA" plain_dumps "whatsapp://other" empty_remote
  = ([], Ok "{}").
Proof.
  assert (Hin : In "whatsapp://account" (map resource_uri list_resources)).
  { simpl. right. left. reflexivity. }
  assert (Hout : ~ In "whatsapp://other" (map resource_uri list_resources)).
  { simpl. intros [H|[H|[]]]; discriminate H. }
  split; [exact Hin|]. split; [exact Hout|]. split.
  - exact (proj1 (read_resource_serves_listed_uris "TOKEN" "WABA" plain_dumps
                    "whatsapp://account" empty_remote) Hin).
  - exact (proj2 (read_resource_serves_listed_uris "TOKEN" "WABA" plain_dumps
                    "whatsapp://other" empty_remote) Hout).
Defined.

Lemma transport_fault_escapes_except_create_witness :
  (forall rq, down_remote TransportError rq = Raise TransportError) /\
  outcome (call_tool "TOKEN" "WABA" "PHONE" plain_dumps plain_repr plain_exn
             plain_exn "list_templates" [] (down_remote TransportError))
  = Raise TransportError.
Proof.
  split; [intro; reflexivity|].
  exact (proj1 (transport_fault_escapes_except_create "TOKEN" "WABA" "PHONE"
                  plain_dumps plain_repr plain_exn plain_exn "list_templates" []
                  TransportError (down_remote TransportError)
                  (fun _ => eq_refl))
               (or_introl eq_refl)).
Defined.

Lemma missing_required_argument_sends_nothing_witness :
  In (mk_tool "delete_template" ["template_name"]) list_tools /\
  dict_get "template_name" [] = None /\
  requests (call_tool "TOKEN" "WABA" "PHONE" plain_dumps plain_repr plain_exn
              plain_exn "delete_template" [] empty_remote) = [].
Proof.
  assert (Hin : In (mk_tool "delete_template" ["template_name"]) list_tools).
  { simpl. right. right. right. left. reflexivity. }
  split; [exact Hin|]. split; [reflexivity|].
  exact (proj1 (missing_required_argument_sends_nothing "TOKEN" "WABA" "PHONE"
                  plain_dumps plain_repr plain_exn plain_exn
                  (mk_tool "delete_template" ["template_name"]) "template_name"
                  [] empty_remote Hin (or_introl eq_refl) eq_refl eq_refl)).
Defined.

Lemma send_template_message_without_parameters_witness :
  dict_get "body_parameters" bare_send_args = None /\
  dict_get "header_parameters" bare_send_args = None /\
  List.length (requests (call_tool "TOKEN" "WABA" "PHONE" plain_dumps plain_repr
                           plain_exn plain_exn "send_template_message"
                           bare_send_args empty_remote)) = 1%nat.
Proof.
  split; [reflexivity|]. split; [reflexivity|].
  exact (f_equal (@List.length http_request)
           (proj2 (send_template_message_without_parameters "TOKEN" "WABA" "PHONE"
                     plain_dumps plain_repr plain_exn plain_exn bare_send_args
                     (JStr "56912345678") (JStr "welcome_msg") empty_remote
                     eq_refl eq_refl eq_refl eq_refl))).
Defined.

Lemma filter_templates_single_witness :
  "APPROVED" <> "" /\
  filter_templates [("status", JStr "APPROVED")] (JArr (map JObj sample_templates))
  = Ok (JArr [ JObj [ ("name", JStr "a"); ("status", JStr "APPROVED");
                      ("category", JStr "UTILITY") ];
               JObj [ ("name", JStr "c"); ("status", JStr "APPROVED");
                      ("category", JStr "MARKETING") ] ]).
Proof.
  assert (HS : "APPROVED" <> "") by discriminate.
  split; [exact HS|].
  exact (filter_templates_single [("status", JStr "APPROVED")] "status" "category"
           "APPROVED" sample_templates (or_introl (conj eq_refl eq_refl)) HS
           eq_refl (or_introl eq_refl)).
Defined.

Lemma sample_templates_named :
  Forall (fun t => dict_get "name" t <> None) sample_templates.
Proof. repeat constructor; discriminate. Defined.

Lemma list_templates_renders_table_witness :
  Forall (fun t => dict_get "name" t <> None) sample_templates /\
  format_list_templates plain_dumps plain_repr [("status", JStr "APPROVED")]
    (JObj [("data", JArr (map JObj sample_templates))])
  = Ok [text_content
          ("## WhatsApp Templates" +++ nl +++ nl
           +++ "| Name | Category | Status | Language |" +++ nl
           +++ "|------|----------|--------|----------|" +++ nl
           +++ "| a | UTILITY | APPROVED | N/A |" +++ nl
           +++ "| c | MARKETING | APPROVED | N/A |" +++ nl
           +++ nl +++ "**Total: 2 templates**")].
Proof.
  split; [exact sample_templates_named|].
  exact (list_templates_renders_table plain_dumps plain_repr
           [("status", JStr "APPROVED")]
           [("data", JArr (map JObj sample_templates))] sample_templates
           eq_refl sample_templates_named).
Defined.

Lemma phone_numbers_render_witness :
  format_phone_numbers plain_dumps plain_repr
    (JObj [("data", JArr (map JObj [[("display_phone_number", JStr "+56 9 1234 5678");
                                     ("id", JStr "111")]]))])
  = Ok [text_content
          ("## Phone Numbers" +++ nl +++ nl
           +++ "- **+56 9 1234 5678** (None)" +++ nl
           +++ "  - Quality: N/A" +++ nl
           +++ "  - Limit: N/A" +++ nl
           +++ "  - ID: 111" +++ nl +++ nl)].
Proof.
  exact (phone_numbers_render plain_dumps plain_repr
           [("data", JArr (map JObj [[("display_phone_number", JStr "+56 9 1234 5678");
                                      ("id", JStr "111")]]))]
           [[("display_phone_number", JStr "+56 9 1234 5678"); ("id", JStr "111")]]
           eq_refl).
Defined.

Lemma get_template_by_name_witness :
  py_truthy (arg_get [("template_name", JStr "a")] "template_id") = false /\
  call_tool "TOKEN" "WABA" "PHONE" plain_dumps plain_repr plain_exn plain_exn
    "get_template" [("template_name", JStr "a")] one_template_remote
  = ([get_template_by_name_request "TOKEN" "WABA" [("template_name", JStr "a")]],
     Ok [text_content
           (plain_dumps (Some 2) false
              (JObj [("name", JStr "a"); ("status", JStr "APPROVED")]))]).
Proof.
  split; [reflexivity|].
  exact (proj1 (get_template_by_name "TOKEN" "WABA" "PHONE" plain_dumps plain_repr
                  plain_exn plain_exn [("template_name", JStr "a")]
                  [("data", JArr [JObj [("name", JStr "a"); ("status", JStr "APPROVED")];
                                  JObj [("name", JStr "b")]])]
                  [JObj [("name", JStr "a"); ("status", JStr "APPROVED")];
                   JObj [("name", JStr "b")]]
                  one_template_remote eq_refl eq_refl (or_introl eq_refl))).
Defined.

Lemma get_template_by_id_witness :
  py_truthy (arg_get [("template_id", JStr "987")] "template_id") = true /\
  call_tool "TOKEN" "WABA" "PHONE" plain_dumps plain_repr plain_exn plain_exn
    "get_template" [("template_id", JStr "987")] one_template_remote
  = ([ mk_request "GET" "https://graph.facebook.com/v24.0/987" (headers "TOKEN")
         (Some (JObj [("fields",
                       JStr "name,status,category,language,components,quality_score")]))
         None ],
     Ok [text_content
           (plain_dumps (Some 2) false
              (JObj [("data", JArr [JObj [("name", JStr "a"); ("status", JStr "APPROVED")];
                                    JObj [("name", JStr "b")]])]))]).
Proof.
  split; [reflexivity|].
  exact (get_template_by_id "TOKEN" "WABA" "PHONE" plain_dumps plain_repr
           plain_exn plain_exn [("template_id", JStr "987")] one_template_remote
           eq_refl).
Defined.


Lemma create_template_reports_success_witness :
  (forall rq, created_remote rq = Ok (JObj [("id", JStr "1234")])) /\
  outcome (call_tool "TOKEN" "WABA" "PHONE" plain_dumps plain_repr plain_exn
             plain_exn "create_template" full_args created_remote) =
    Ok [text_content ("Template created successfully!" +++ nl +++ nl
                      +++ "- **ID**: 1234" +++ nl
                      +++ "- **Status**: PENDING" +++ nl
                      +++ "- **Category**: MARKETING")].
Proof.
  split; [intro; reflexivity|].
  exact (create_template_reports_success "TOKEN" "WABA" "PHONE" plain_dumps
           plain_repr plain_exn plain_exn full_args [("id", JStr "1234")]
           full_view (JStr "promo") (JStr "MARKETING") (JStr "1234")
           created_remote full_args_view eq_refl eq_refl (fun _ => eq_refl)
           eq_refl).
Defined.

Lemma button_without_type_aborts_creation_witness :
  Exists (fun j => exists e, py_getitem j "type" = Raise e)
         [JObj [("text", JStr "Yes")]] /\
  requests (call_tool "TOKEN" "WABA" "PHONE" plain_dumps plain_repr plain_exn
              plain_exn "create_template" no_type_button_args empty_remote) = [].
Proof.
  assert (Hbad : Exists (fun j => exists e, py_getitem j "type" = Raise e)
                        [JObj [("text", JStr "Yes")]]).
  { apply Exists_cons_hd. exists (KeyError "type"). reflexivity. }
  split; [exact Hbad|].
  exact (proj1 (button_without_type_aborts_creation "TOKEN" "WABA" "PHONE"
                  plain_dumps plain_repr plain_exn plain_exn no_type_button_args
                  [JObj [("text", JStr "Yes")]] empty_remote eq_refl Hbad)).
Defined.

Lemma delete_template_reports_witness :
  (forall rq, deleted_remote rq = Ok (JObj [("success", JBool true)])) /\
  outcome (call_tool "TOKEN" "WABA" "PHONE" plain_dumps plain_repr plain_exn
             plain_exn "delete_template" delete_args deleted_remote) =
    Ok [text_content "Template 'old_promo' deleted successfully"].
Proof.
  split; [intro; reflexivity|].
  exact (delete_template_reports "TOKEN" "WABA" "PHONE" plain_dumps plain_repr
           plain_exn plain_exn delete_args [("success", JBool true)]
           (JStr "old_promo") deleted_remote eq_refl (fun _ => eq_refl)).
Defined.

Lemma send_reports_first_message_id_witness :
  (forall rq, sent_remote rq
              = Ok (JObj [("messages", JArr [JObj [("id", JStr "wamid.1")]])])) /\
  outcome (call_tool "TOKEN" "WABA" "PHONE" plain_dumps plain_repr plain_exn
             plain_exn "send_text_message" hi_args sent_remote) =
    Ok [text_content ("Text message sent!" +++ nl +++ nl
                      +++ "- **Message ID**: wamid.1" +++ nl
                      +++ "- **To**: 56912345678")].
Proof.
  split; [intro; reflexivity|].
  exact (proj1 (send_reports_first_message_id "TOKEN" "WABA" "PHONE" plain_dumps
                  plain_repr plain_exn plain_exn hi_args
                  [("messages", JArr [JObj [("id", JStr "wamid.1")]])]
                  [("id", JStr "wamid.1")] [] (JStr "wamid.1")
                  (JStr "56912345678") sent_remote (fun _ => eq_refl) eq_refl
                  eq_refl eq_refl)
               (JStr "Hi") eq_refl).
Defined.

Lemma call_tool_ignores_key_order_witness :
  wf_dict full_args /\
  Permutation full_args (rev full_args) /\
  call_tool "TOKEN" "WABA" "PHONE" plain_dumps plain_repr plain_exn plain_exn
    "create_template" (rev full_args) created_remote
  = call_tool "TOKEN" "WABA" "PHONE" plain_dumps plain_repr plain_exn plain_exn
      "create_template" full_args created_remote.
Proof.
  split; [exact full_args_wf|]. split; [apply Permutation_rev|].
  exact (call_tool_ignores_key_order "TOKEN" "WABA" "PHONE" plain_dumps plain_repr
           plain_exn plain_exn "create_template" full_args (rev full_args)
           created_remote full_args_wf (Permutation_rev full_args)).
Defined.

Lemma call_tool_method_witness :
  exists rq,
    In rq (requests (call_tool "TOKEN" "WABA" "PHONE" plain_dumps plain_repr
                       plain_exn plain_exn "send_text_message" hi_args
                       sent_remote)) /\
    rq_method rq = "POST".
Proof.
  eexists. split; [left; reflexivity|].
  refine (call_tool_method "TOKEN" "WABA" "PHONE" plain_dumps plain_repr plain_exn
            plain_exn "send_text_message" hi_args sent_remote _
            (or_introl eq_refl)).
Defined.

Lemma missing_success_key_is_rendered_witness :
  dict_get "data" error_response = None /\
  dict_get "messages" error_response = None /\
  format_list_templates plain_dumps plain_repr [] (JObj error_response)
  = Ok [text_content ("Error: " +++ plain_dumps None true (JObj error_response))] /\
  format_send plain_dumps plain_repr "Text message sent!" hi_args
    (JObj error_response)
  = Ok [text_content ("Error sending message: "
                      +++ plain_dumps (Some 2) true (JObj error_response))].
Proof.
  pose proof (missing_success_key_is_rendered plain_dumps plain_repr [] error_response)
    as [Hlist _].
  pose proof (missing_success_key_is_rendered plain_dumps plain_repr hi_args
                error_response) as [_ [_ [_ Hsend]]].
  split; [reflexivity|]. split; [reflexivity|]. split.
  - exact (Hlist eq_refl).
  - exact (Hsend eq_refl "Text message sent!").
Defined.

Lemma crowded_templates_named :
  Forall (fun t => dict_get "name" t <> None) (repeat [("name", JStr "t")] 51).
Proof.
  apply Forall_forall. intros t Ht. apply repeat_spec in Ht. subst t.
  discriminate.
Defined.

Lemma template_list_requests_ask_limit_50_witness :
  py_truthy (arg_get [("template_name", JStr "t")] "template_id") = false /\
  requests (call_tool "TOKEN" "WABA" "PHONE" plain_dumps plain_repr plain_exn
              plain_exn "get_template" [("template_name", JStr "t")]
              crowded_remote)
  = [get_template_by_name_request "TOKEN" "WABA" [("template_name", JStr "t")]] /\
  format_list_templates plain_dumps plain_repr [("template_name", JStr "t")]
    (JObj [("data", JArr (map JObj (repeat [("name", JStr "t")] 51)))])
  = Ok [text_content
          ("## WhatsApp Templates" +++ nl +++ nl
           +++ "| Name | Category | Status | Language |" +++ nl
           +++ "|------|----------|--------|----------|" +++ nl
           +++ join (map (template_line plain_repr) (repeat [("name", JStr "t")] 51))
           +++ nl +++ "**Total: 51 templates**")].
Proof.
  pose proof (template_list_requests_ask_limit_50 "TOKEN" "WABA" "PHONE"
                plain_dumps plain_repr plain_exn plain_exn
                [("template_name", JStr "t")] crowded_remote)
    as [_ [_ [_ [_ [Hname Hlist]]]]].
  split; [reflexivity|]. split.
  - exact (proj1 (Hname eq_refl)).
  - exact (Hlist [("data", JArr (map JObj (repeat [("name", JStr "t")] 51)))]
             (repeat [("name", JStr "t")] 51) eq_refl eq_refl eq_refl
             crowded_templates_named).
Defined.

(** C10 as stated fails: the request of [list_templates] carries
    [limit=50], yet against a remote that returns 51 entries all 51 are
    listed; and the lookup by name of [get_template] asks the same endpoint
    with no [limit] at all. *)
Lemma limit_50_is_not_a_cap_counterexample :
  requests (call_tool "TOKEN" "WABA" "PHONE" plain_dumps plain_repr plain_exn
              plain_exn "list_templates" [] crowded_remote)
  = [list_templates_request "TOKEN" "WABA"] /\
  has_query (list_templates_request "TOKEN" "WABA") "limit" (JInt 50) /\
  outcome (call_tool "TOKEN" "WABA" "PHONE" plain_dumps plain_repr plain_exn
             plain_exn "list_templates" [] crowded_remote)
  = Ok [text_content
          ("## WhatsApp Templates" +++ nl +++ nl
           +++ "| Name | Category | Status | Language |" +++ nl
           +++ "|------|----------|--------|----------|" +++ nl
           +++ join (repeat ("| t | N/A | N/A | N/A |" +++ nl) 51)
           +++ nl +++ "**Total: 51 templates**")] /\
  (exists rq,
     requests (call_tool "TOKEN" "WABA" "PHONE" plain_dumps plain_repr plain_exn
                 plain_exn "get_template" [("template_name", JStr "t")]
                 crowded_remote) = [rq] /\
     rq_url rq = rq_url (list_templates_request "TOKEN" "WABA") /\
     forall v, ~ has_query rq "limit" v).
Proof.
  split; [reflexivity|].
  split; [eexists; split; reflexivity|].
  split; [vm_compute; reflexivity|].
  eexists. split; [reflexivity|]. split; [reflexivity|].
  intros v [q [Hq Hlimit]]. injection Hq as <-. discriminate Hlimit.
Qed.
